(** * douyinVd: the HTTP handlers of the media-resolution gateway

    A shallow embedding of the three [handler] functions of the repository
    (src/serve.ts, src/unnamed/part_000, src/unnamed/part_001) together with
    the part of the Fetch API they use ([Headers], [Response], [fetch]),
    and the properties of the request classification and relay pipeline.

    The handlers are asynchronous functions that call two external
    collaborators (the resolver of douyin.ts and the network through
    [fetch]), mutate a local [Headers] object and recover from exceptions
    with try/catch.  They are embedded in a small monad that threads the
    mutable [corsHeaders] object and a log of the external calls, and whose
    state survives a thrown exception, as it does in JavaScript. *)

From Stdlib Require Import String Ascii List ZArith Bool Lia.
From Stdlib Require Import DecimalString.
Import ListNotations.
Local Open Scope string_scope.
Local Open Scope Z_scope.

(* ===================================================================== *)
(** ** Strings *)

(** ASCII lower-casing of one byte (header names are compared
    byte-case-insensitively). *)
Definition lower_ascii (c : ascii) : ascii :=
  let n := nat_of_ascii c in
  if (Nat.leb 65 n && Nat.leb n 90)%bool then ascii_of_nat (n + 32) else c.

Fixpoint lowercase (s : string) : string :=
  match s with
  | EmptyString => EmptyString
  | String c r => String (lower_ascii c) (lowercase r)
  end.

(** JavaScript truthiness of a string: only the empty string is falsy. *)
Definition truthy (s : string) : bool :=
  match s with EmptyString => false | String _ _ => true end.

(** Truthiness of [string | null]. *)
Definition truthy_opt (o : option string) : bool :=
  match o with Some s => truthy s | None => false end.

(** [a || b] on [string | null] with a string default. *)
Definition or_default (o : option string) (d : string) : string :=
  match o with
  | Some s => if truthy s then s else d
  | None => d
  end.

(** Decimal rendering of a status code inside a template literal. *)
Definition string_of_Z (z : Z) : string := NilZero.string_of_int (Z.to_int z).

(** The double-quote character, for the messages that contain one. *)
Definition dquote : string := String (ascii_of_nat 34) EmptyString.

Fixpoint join (sep : string) (l : list string) : string :=
  match l with
  | [] => EmptyString
  | [x] => x
  | x :: r => x ++ sep ++ join sep r
  end.

(* ===================================================================== *)
(** ** The Fetch API objects the handlers use *)

(** A [Headers] object: an ordered header list; names match
    case-insensitively.  Values are taken as already normalised. *)
Definition Headers := list (string * string).

Definition name_eqb (a b : string) : bool := String.eqb (lowercase a) (lowercase b).

Module Headers.

(** [new Headers()] *)
Definition new : Headers := [].

Definition values (h : Headers) (name : string) : list string :=
  map snd (filter (fun kv => name_eqb (fst kv) name) h).

(** [h.has(name)] *)
Definition has (h : Headers) (name : string) : bool :=
  existsb (fun kv => name_eqb (fst kv) name) h.

(** [h.get(name)]: [null] when no header has the name, otherwise the
    values of all of them, in order, joined by a comma and a space. *)
Definition get (h : Headers) (name : string) : option string :=
  match values h name with
  | [] => None
  | vs => Some (join ", " vs)
  end.

Definition remove (h : Headers) (name : string) : Headers :=
  filter (fun kv => negb (name_eqb (fst kv) name)) h.

(** [h.append(name, value)] *)
Definition append (h : Headers) (name value : string) : Headers :=
  (h ++ [(lowercase name, value)])%list.

(** [h.set(name, value)]: the first header of that name takes the value
    and the others are removed; a new name is appended. *)
Fixpoint set (h : Headers) (name value : string) : Headers :=
  match h with
  | [] => [(lowercase name, value)]
  | (k, v) :: r =>
      if name_eqb k name then (k, value) :: remove r name
      else (k, v) :: set r name value
  end.

End Headers.

(** A [ReadableStream] of bytes, identified with the bytes it delivers. *)
Definition ReadableStream := list Byte.byte.

(** The body argument of [new Response]: a string or a stream
    ([null] is [None]). *)
Inductive BodyInit :=
| BodyText (s : string)
| BodyStream (rs : ReadableStream).

Record Response := mkResponse {
  status : Z;
  headers : Headers;
  body : option BodyInit
}.

(** What [fetch] resolves to. *)
Record UpstreamResponse := mkUpstream {
  up_status : Z;
  up_statusText : string;
  up_headers : Headers;
  up_body : option ReadableStream
}.

(** [response.ok] *)
Definition ok (r : UpstreamResponse) : bool :=
  (200 <=? up_status r) && (up_status r <=? 299).

(** The null body statuses of the Fetch standard. *)
Definition null_body_status (s : Z) : bool :=
  (s =? 101) || (s =? 103) || (s =? 204) || (s =? 205) || (s =? 304).

(** A response obtained from [fetch] for a GET request has a null body
    exactly when its status is a null body status. *)
Definition fetched (r : UpstreamResponse) : bool :=
  Bool.eqb (match up_body r with None => true | Some _ => false end)
           (null_body_status (up_status r)).

(** JavaScript errors, by constructor and message. *)
Inductive Error :=
| JsError (msg : string)
| TypeError (msg : string)
| RangeError (msg : string).

Inductive Outcome (A : Type) :=
| Return (a : A)
| Throw (e : Error).
Arguments Return {A} a.
Arguments Throw {A} e.

(** [new Response(body, { status, headers })].  The status defaults to 200;
    a status outside 200..599 is a RangeError; a body with a null body
    status is a TypeError; the headers are copied; a string body brings its
    content type when the headers have none. *)
Definition new_Response (b : option BodyInit) (st : option Z) (h : Headers)
  : Outcome Response :=
  let s := match st with Some s => s | None => 200 end in
  if negb ((200 <=? s) && (s <=? 599)) then
    Throw (RangeError "The status provided is outside the range [200, 599].")
  else
    match b with
    | None => Return (mkResponse s h None)
    | Some bi =>
        if null_body_status s then
          Throw (TypeError "Response with null body status cannot have body")
        else
          match bi with
          | BodyText _ =>
              if Headers.has h "Content-Type" then Return (mkResponse s h b)
              else Return (mkResponse s
                     (Headers.append h "Content-Type" "text/plain;charset=UTF-8") b)
          | BodyStream _ => Return (mkResponse s h b)
          end
    end.

(** The essence of a content type: what precedes the parameters, without
    surrounding spaces, in lower case. *)
Fixpoint before_semicolon (s : string) : string :=
  match s with
  | EmptyString => EmptyString
  | String c r => if Ascii.eqb c ";" then EmptyString else String c (before_semicolon r)
  end.

Fixpoint drop_spaces (s : string) : string :=
  match s with
  | String c r => if Ascii.eqb c " " then drop_spaces r else s
  | EmptyString => EmptyString
  end.

Fixpoint rev_string (s acc : string) : string :=
  match s with
  | EmptyString => acc
  | String c r => rev_string r (String c acc)
  end.

Definition trim (s : string) : string :=
  rev_string (drop_spaces (rev_string (drop_spaces s) EmptyString)) EmptyString.

Definition essence (content_type : string) : string :=
  lowercase (trim (before_semicolon content_type)).

(** The content type of a response, as a client reads it. *)
Definition content_type (r : Response) : option string :=
  option_map essence (Headers.get (headers r) "Content-Type").

(* ===================================================================== *)
(** ** The external collaborators *)

(** Modelled from the spec: the record that [getVideoInfo] of douyin.ts
    resolves to (douyin.ts is not among the sources; the spec calls the
    record ResolvedMedia).  The handlers read its [type] and [video_url]
    properties and serialise it; [json] is the text [JSON.stringify]
    gives for it (rawMetadata in the spec). *)
Record VideoInfo := mkVideoInfo {
  type : option string;
  video_url : option string;
  json : string
}.

(** [JSON.stringify(videoInfo)] *)
Definition JSON_stringify (d : VideoInfo) : string := json d.

(** The resolver of douyin.ts and the network: what each call gives,
    a value or an exception. *)
Record Env := mkEnv {
  getVideoUrl : string -> Outcome string;
  getVideoInfo : string -> Outcome VideoInfo;
  fetch : string -> Headers -> Outcome UpstreamResponse
}.

(** The inbound request: [req.method], [new URL(req.url).searchParams] and
    [req.headers]. *)
Record URL := mkURL { searchParams : list (string * string) }.

Record Request := mkRequest {
  method : string;
  url : URL;
  req_headers : Headers
}.

Module URLSearchParams.

(** [params.get(name)]: the first value of that name, or [null]. *)
Fixpoint get (p : list (string * string)) (name : string) : option string :=
  match p with
  | [] => None
  | (k, v) :: r => if String.eqb k name then Some v else get r name
  end.

(** [params.has(name)] *)
Definition has (p : list (string * string)) (name : string) : bool :=
  existsb (fun kv => String.eqb (fst kv) name) p.

End URLSearchParams.

(** [o === s] for [o : string | null]. *)
Definition strict_eq (o : option string) (s : string) : bool :=
  match o with Some x => String.eqb x s | None => false end.

(* ===================================================================== *)
(** ** The monad of a handler run *)

(** The calls that leave the handler, in the order they are made. *)
Inductive Event :=
| CallGetVideoUrl (inputUrl : string)
| CallGetVideoInfo (inputUrl : string)
| CallFetch (target : string) (h : Headers)
| ConsoleError (msg : string) (e : Error).

(** The mutable state of one run: the [corsHeaders] object, which the try
    block and its catch block share, and the log of events. *)
Record Store := mkStore {
  corsHeaders : Headers;
  log : list Event
}.

Definition M (A : Type) : Type := Store -> Outcome A * Store.

Definition ret {A} (a : A) : M A := fun s => (Return a, s).

Definition bind {A B} (m : M A) (k : A -> M B) : M B :=
  fun s =>
    match m s with
    | (Return a, s') => k a s'
    | (Throw e, s') => (Throw e, s')
    end.

(** [throw e] *)
Definition throw {A} (e : Error) : M A := fun s => (Throw e, s).

(** [try { m } catch (error) { h error }]: the handler runs in the state
    the try block left behind. *)
Definition try_catch {A} (m : M A) (h : Error -> M A) : M A :=
  fun s =>
    match m s with
    | (Return a, s') => (Return a, s')
    | (Throw e, s') => h e s'
    end.

Declare Scope js_scope.
Delimit Scope js_scope with js.
Notation "x <- m ;; k" := (bind m (fun x => k))
  (at level 61, m at next level, right associativity) : js_scope.
Notation "m ;; k" := (bind m (fun _ => k))
  (at level 61, right associativity) : js_scope.
Notation "'TRY' m 'CATCH' e '=>' h" := (try_catch m (fun e => h))
  (at level 62, e name, right associativity) : js_scope.
Local Open Scope js_scope.

Definition emit (e : Event) : M unit :=
  fun s => (Return tt, mkStore (corsHeaders s) (log s ++ [e])).

(** [const corsHeaders = headers] *)
Definition let_corsHeaders (h : Headers) : M unit :=
  fun s => (Return tt, mkStore h (log s)).

(** [corsHeaders.set(name, value)] *)
Definition corsHeaders_set (name value : string) : M unit :=
  fun s => (Return tt, mkStore (Headers.set (corsHeaders s) name value) (log s)).

(** [new Response(body, { status, headers: corsHeaders })] *)
Definition Response_with_corsHeaders (b : option BodyInit) (st : option Z) : M Response :=
  fun s => (new_Response b st (corsHeaders s), s).

Definition lift {A} (o : Outcome A) : M A := fun s => (o, s).

(** [await getVideoUrl(inputUrl)] *)
Definition await_getVideoUrl (env : Env) (inputUrl : string) : M string :=
  emit (CallGetVideoUrl inputUrl) ;; lift (getVideoUrl env inputUrl).

(** [await getVideoInfo(inputUrl)] *)
Definition await_getVideoInfo (env : Env) (inputUrl : string) : M VideoInfo :=
  emit (CallGetVideoInfo inputUrl) ;; lift (getVideoInfo env inputUrl).

(** [await fetch(target, { headers: h })] *)
Definition await_fetch (env : Env) (target : string) (h : Headers) : M UpstreamResponse :=
  emit (CallFetch target h) ;; lift (fetch env target h).

(** [console.error(msg, error)] *)
Definition console_error (msg : string) (e : Error) : M unit :=
  emit (ConsoleError msg e).

(** One run of a handler from a fresh state: what it resolves to, and the
    calls it made. *)
Definition run {A} (m : M A) : Outcome A * list Event :=
  let (o, s) := m (mkStore Headers.new []) in (o, log s).

Definition user_agent : string :=
  "Mozilla/5.0 (Windows NT 10.0; Win64; x64) AppleWebKit/537.36 (KHTML, like Gecko) Chrome/107.0.0.0 Safari/537.36".

(** The headers of the upstream request, common to the two relaying
    handlers: identity override, then the caller's Range if there is one. *)
Definition videoRequestHeaders (req : Request) : Headers :=
  let h := Headers.new in
  let h := Headers.set h "Referer" "https://www.douyin.com/" in
  let h := Headers.set h "User-Agent" user_agent in
  if Headers.has (req_headers req) "range" then
    Headers.set h "Range"
      (match Headers.get (req_headers req) "range" with
       | Some r => r
       | None => EmptyString
       end)
  else h.

(** The headers of a relayed response, common to the two relaying
    handlers: a fresh CORS set, then what is copied from upstream. *)
Definition responseHeaders (cors : Headers) (videoResponse : UpstreamResponse) : Headers :=
  let h := cors in
  let h := Headers.set h "Content-Type"
             (or_default (Headers.get (up_headers videoResponse) "Content-Type") "video/mp4") in
  let h := Headers.set h "Content-Length"
             (or_default (Headers.get (up_headers videoResponse) "Content-Length") "0") in
  let h := Headers.set h "Accept-Ranges" "bytes" in
  if Headers.has (up_headers videoResponse) "content-range" then
    Headers.set h "Content-Range"
      (match Headers.get (up_headers videoResponse) "content-range" with
       | Some r => r
       | None => EmptyString
       end)
  else h.

(* ===================================================================== *)
(** ** src/serve.ts: the streaming proxy *)

Module Serve.

Definition createCorsHeaders : Headers :=
  let headers := Headers.new in
  let headers := Headers.set headers "Access-Control-Allow-Origin" "*" in
  let headers := Headers.set headers "Access-Control-Allow-Methods" "GET, OPTIONS" in
  let headers := Headers.set headers "Access-Control-Allow-Headers" "Content-Type, Range" in
  let headers := Headers.set headers "Access-Control-Expose-Headers" "Content-Length, Content-Range" in
  headers.

Definition handler (env : Env) (req : Request) : M Response :=
  let_corsHeaders createCorsHeaders ;;
  if String.eqb (method req) "OPTIONS" then
    Response_with_corsHeaders None (Some 204)
  else
    let inputUrl := URLSearchParams.get (searchParams (url req)) "url" in
    match inputUrl with
    | None | Some EmptyString =>
        corsHeaders_set "Content-Type" "text/plain; charset=utf-8" ;;
        Response_with_corsHeaders (Some (BodyText "Missing 'url' parameter.")) (Some 400)
    | Some inputUrl =>
        if URLSearchParams.has (searchParams (url req)) "data" then
          TRY
            videoInfo <- await_getVideoInfo env inputUrl ;;
            corsHeaders_set "Content-Type" "application/json; charset=utf-8" ;;
            Response_with_corsHeaders (Some (BodyText (JSON_stringify videoInfo))) None
          CATCH error =>
            console_error "Error fetching video info:" error ;;
            Response_with_corsHeaders (Some (BodyText "Error fetching video info.")) (Some 500)
        else
          TRY
            protectedVideoUrl <- await_getVideoUrl env inputUrl ;;
            (if negb (truthy protectedVideoUrl)
             then throw (JsError "Could not resolve video URL.")
             else ret tt) ;;
            let videoRequestHeaders := videoRequestHeaders req in
            videoResponse <- await_fetch env protectedVideoUrl videoRequestHeaders ;;
            (if negb (ok videoResponse)
                || match up_body videoResponse with None => true | Some _ => false end
             then throw (JsError ("Upstream server error: "
                                  ++ string_of_Z (up_status videoResponse) ++ " "
                                  ++ up_statusText videoResponse))
             else ret tt) ;;
            let responseHeaders := responseHeaders createCorsHeaders videoResponse in
            lift (new_Response (option_map BodyStream (up_body videoResponse))
                               (Some (up_status videoResponse)) responseHeaders)
          CATCH error =>
            console_error ("Error proxying request for URL " ++ dquote ++ inputUrl
                           ++ dquote ++ ":") error ;;
            Response_with_corsHeaders
              (Some (BodyText "An internal server error occurred while proxying video."))
              (Some 500)
    end.

End Serve.

(* ===================================================================== *)
(** ** src/unnamed/part_000: the pass-through variant *)

Module Part000.

Definition createCorsHeaders : Headers :=
  let headers := Headers.new in
  let headers := Headers.set headers "Access-Control-Allow-Origin" "*" in
  let headers := Headers.set headers "Access-Control-Allow-Methods" "GET, OPTIONS" in
  let headers := Headers.set headers "Access-Control-Allow-Headers" "Content-Type" in
  headers.

Definition handler (env : Env) (req : Request) : M Response :=
  let_corsHeaders createCorsHeaders ;;
  if String.eqb (method req) "OPTIONS" then
    Response_with_corsHeaders None (Some 204)
  else
    let inputUrl := URLSearchParams.get (searchParams (url req)) "url" in
    match inputUrl with
    | None | Some EmptyString =>
        corsHeaders_set "Content-Type" "text/plain; charset=utf-8" ;;
        Response_with_corsHeaders (Some (BodyText "Missing 'url' parameter.")) (Some 400)
    | Some inputUrl =>
        TRY
          if URLSearchParams.has (searchParams (url req)) "data" then
            videoInfo <- await_getVideoInfo env inputUrl ;;
            corsHeaders_set "Content-Type" "application/json; charset=utf-8" ;;
            Response_with_corsHeaders (Some (BodyText (JSON_stringify videoInfo))) None
          else
            videoUrl <- await_getVideoUrl env inputUrl ;;
            corsHeaders_set "Content-Type" "text/plain; charset=utf-8" ;;
            Response_with_corsHeaders (Some (BodyText videoUrl)) None
        CATCH error =>
          console_error ("Error processing request for URL " ++ dquote ++ inputUrl
                         ++ dquote ++ ":") error ;;
          corsHeaders_set "Content-Type" "text/plain; charset=utf-8" ;;
          Response_with_corsHeaders
            (Some (BodyText "An internal server error occurred.")) (Some 500)
    end.

End Part000.

(* ===================================================================== *)
(** ** src/unnamed/part_001: the type-aware variant *)

Module Part001.

Definition createCorsHeaders : Headers :=
  let headers := Headers.new in
  let headers := Headers.set headers "Access-Control-Allow-Origin" "*" in
  let headers := Headers.set headers "Access-Control-Allow-Methods" "GET, OPTIONS" in
  let headers := Headers.set headers "Access-Control-Allow-Headers" "Content-Type, Range" in
  let headers := Headers.set headers "Access-Control-Expose-Headers" "Content-Length, Content-Range" in
  headers.

Definition gallery_message : string :=
  "这是一个图文帖子。请使用带有 '&data=true' 的接口来获取图片链接。".

Definition internal_error_message : string :=
  "服务器在处理请求时发生内部错误。".

Definition handler (env : Env) (req : Request) : M Response :=
  let_corsHeaders createCorsHeaders ;;
  if String.eqb (method req) "OPTIONS" then
    Response_with_corsHeaders None (Some 204)
  else
    let inputUrl := URLSearchParams.get (searchParams (url req)) "url" in
    match inputUrl with
    | None | Some EmptyString =>
        Response_with_corsHeaders (Some (BodyText "Missing 'url' parameter.")) (Some 400)
    | Some inputUrl =>
        TRY
          data <- await_getVideoInfo env inputUrl ;;
          if URLSearchParams.has (searchParams (url req)) "data" then
            corsHeaders_set "Content-Type" "application/json; charset=utf-8" ;;
            Response_with_corsHeaders (Some (BodyText (JSON_stringify data))) None
          else if strict_eq (type data) "video" && truthy_opt (video_url data) then
            let videoRequestHeaders := videoRequestHeaders req in
            videoResponse <- await_fetch env
                               (match video_url data with Some u => u | None => EmptyString end)
                               videoRequestHeaders ;;
            (if negb (ok videoResponse)
                || match up_body videoResponse with None => true | Some _ => false end
             then throw (JsError ("无法从源服务器获取视频流: "
                                  ++ string_of_Z (up_status videoResponse) ++ " "
                                  ++ up_statusText videoResponse))
             else ret tt) ;;
            let responseHeaders := responseHeaders createCorsHeaders videoResponse in
            lift (new_Response (option_map BodyStream (up_body videoResponse))
                               (Some (up_status videoResponse)) responseHeaders)
          else if strict_eq (type data) "img" then
            Response_with_corsHeaders (Some (BodyText gallery_message)) (Some 400)
          else
            throw (JsError "未知或不支持的内容类型。")
        CATCH error =>
          console_error ("处理请求时发生错误 URL " ++ dquote ++ inputUrl
                         ++ dquote ++ ":") error ;;
          Response_with_corsHeaders (Some (BodyText internal_error_message)) (Some 500)
    end.

End Part001.

(* ===================================================================== *)
(** ** The three variants side by side *)

Inductive variant := serve_ts | part_000 | part_001.

Definition handler (v : variant) : Env -> Request -> M Response :=
  match v with
  | serve_ts => Serve.handler
  | part_000 => Part000.handler
  | part_001 => Part001.handler
  end.

Definition createCorsHeaders (v : variant) : Headers :=
  match v with
  | serve_ts => Serve.createCorsHeaders
  | part_000 => Part000.createCorsHeaders
  | part_001 => Part001.createCorsHeaders
  end.

(** The variants that fetch the media and relay it; part_000 answers with
    the resolved URL as text. *)
Definition relays (v : variant) : bool :=
  match v with
  | serve_ts | part_001 => true
  | part_000 => false
  end.

(** The upstream fetches recorded in a log. *)
Fixpoint fetches (l : list Event) : list (string * Headers) :=
  match l with
  | [] => []
  | CallFetch target h :: r => (target, h) :: fetches r
  | _ :: r => fetches r
  end.

(** The resolver calls recorded in a log. *)
Fixpoint resolver_calls (l : list Event) : list Event :=
  match l with
  | [] => []
  | CallGetVideoUrl u :: r => CallGetVideoUrl u :: resolver_calls r
  | CallGetVideoInfo u :: r => CallGetVideoInfo u :: resolver_calls r
  | _ :: r => resolver_calls r
  end.

(** A request on the media-relay path: not a preflight, a non-empty [url]
    parameter, no [data] parameter. *)
Definition media_relay_request (req : Request) (inputUrl : string) : Prop :=
  method req <> "OPTIONS"
  /\ URLSearchParams.get (searchParams (url req)) "url" = Some inputUrl
  /\ truthy inputUrl = true
  /\ URLSearchParams.has (searchParams (url req)) "data" = false.

(** A request on the metadata path: as above, with a [data] parameter. *)
Definition metadata_request (req : Request) (inputUrl : string) : Prop :=
  method req <> "OPTIONS"
  /\ URLSearchParams.get (searchParams (url req)) "url" = Some inputUrl
  /\ truthy inputUrl = true
  /\ URLSearchParams.has (searchParams (url req)) "data" = true.

(** The resolver answers with a video whose direct URL is [target]:
    [getVideoUrl] gives a non-empty URL (serve.ts, part_000);
    [getVideoInfo] gives type 'video' with a non-empty [video_url]
    (part_001). *)
Definition resolves_to_video (v : variant) (env : Env) (inputUrl target : string) : Prop :=
  match v with
  | serve_ts | part_000 =>
      getVideoUrl env inputUrl = Return target /\ truthy target = true
  | part_001 =>
      exists d, getVideoInfo env inputUrl = Return d
                /\ type d = Some "video"
                /\ video_url d = Some target /\ truthy target = true
  end.

(** The resolver's metadata says the post is an image gallery. *)
Definition resolves_to_gallery (env : Env) (inputUrl : string) : Prop :=
  exists d, getVideoInfo env inputUrl = Return d /\ type d = Some "img".

(** The full CORS header set of the policy. *)
Definition full_cors (r : Response) : Prop :=
  Headers.get (headers r) "Access-Control-Allow-Origin" = Some "*"
  /\ Headers.get (headers r) "Access-Control-Allow-Methods" = Some "GET, OPTIONS"
  /\ Headers.get (headers r) "Access-Control-Allow-Headers" = Some "Content-Type, Range"
  /\ Headers.get (headers r) "Access-Control-Expose-Headers"
     = Some "Content-Length, Content-Range".

(** The narrower set of part_000. *)
Definition narrow_cors (r : Response) : Prop :=
  Headers.get (headers r) "Access-Control-Allow-Origin" = Some "*"
  /\ Headers.get (headers r) "Access-Control-Allow-Methods" = Some "GET, OPTIONS"
  /\ Headers.get (headers r) "Access-Control-Allow-Headers" = Some "Content-Type"
  /\ Headers.get (headers r) "Access-Control-Expose-Headers" = None.

(** The fixed text of the 500 response of the media-relay path. *)
Definition relay_error_message (v : variant) : string :=
  match v with
  | serve_ts => "An internal server error occurred while proxying video."
  | part_000 => "An internal server error occurred."
  | part_001 => Part001.internal_error_message
  end.

(** The fixed text of the 500 response of the metadata path. *)
Definition metadata_error_message (v : variant) : string :=
  match v with
  | serve_ts => "Error fetching video info."
  | part_000 => "An internal server error occurred."
  | part_001 => Part001.internal_error_message
  end.

(* ===================================================================== *)
(** ** Test doubles: concrete resolvers, upstream servers and requests *)

Module Doubles.

Definition share_url : string := "https://v.douyin.com/iABCdef/".
Definition media_url : string := "https://v26.douyinvod.com/video/tos/1.mp4".

Definition media_bytes : ReadableStream := [Byte.x00; Byte.x00; Byte.x00; Byte.x18].
Definition error_page : ReadableStream := [Byte.x4e; Byte.x6f].

Definition up_200 : UpstreamResponse :=
  mkUpstream 200 "OK"
    [("content-type", "video/mp4"); ("content-length", "5000")] (Some media_bytes).

Definition up_206 : UpstreamResponse :=
  mkUpstream 206 "Partial Content"
    [("content-type", "video/mp4"); ("content-length", "100");
     ("content-range", "bytes 100-199/5000")] (Some media_bytes).

Definition up_203 : UpstreamResponse :=
  mkUpstream 203 "Non-Authoritative Information"
    [("content-type", "video/mp4"); ("content-length", "5000")] (Some media_bytes).

Definition up_404 : UpstreamResponse :=
  mkUpstream 404 "Not Found" [("content-type", "text/html")] (Some error_page).

(** An upstream answer whose Content-Type header is present and empty. *)
Definition up_blank_type : UpstreamResponse :=
  mkUpstream 200 "OK"
    [("content-type", EmptyString); ("content-length", "5000")] (Some media_bytes).

Definition video_info : VideoInfo :=
  mkVideoInfo (Some "video") (Some media_url) "{}".

Definition gallery_info : VideoInfo :=
  mkVideoInfo (Some "img") None "[]".

Definition video_without_url : VideoInfo :=
  mkVideoInfo (Some "video") None "{}".

(** A video post; the upstream honours Range. *)
Definition env_video : Env :=
  mkEnv (fun _ => Return media_url)
        (fun _ => Return video_info)
        (fun _ h => if Headers.has h "Range" then Return up_206 else Return up_200).

(** A video post whose upstream always answers [up]. *)
Definition env_upstream (up : UpstreamResponse) : Env :=
  mkEnv (fun _ => Return media_url)
        (fun _ => Return video_info)
        (fun _ _ => Return up).

(** A gallery post: there is no video URL to resolve. *)
Definition env_gallery : Env :=
  mkEnv (fun _ => Throw (JsError "no video in this post"))
        (fun _ => Return gallery_info)
        (fun _ _ => Throw (TypeError "fetch failed")).

(** Metadata of type video without a URL. *)
Definition env_video_without_url : Env :=
  mkEnv (fun _ => Throw (JsError "no video in this post"))
        (fun _ => Return video_without_url)
        (fun _ _ => Throw (TypeError "fetch failed")).

(** A resolver that fails. *)
Definition env_failing : Env :=
  mkEnv (fun _ => Throw (JsError "parse failed"))
        (fun _ => Throw (JsError "parse failed"))
        (fun _ _ => Throw (TypeError "fetch failed")).

Definition req_media : Request :=
  mkRequest "GET" (mkURL [("url", share_url)]) [("accept", "*/*")].

Definition req_range : Request :=
  mkRequest "GET" (mkURL [("url", share_url)]) [("range", "bytes=100-199")].

Definition req_data : Request :=
  mkRequest "GET" (mkURL [("url", share_url); ("data", "1")]) [].

Definition req_no_url : Request :=
  mkRequest "GET" (mkURL [("data", "1")]) [].

Definition req_options : Request :=
  mkRequest "OPTIONS" (mkURL []) [("origin", "https://player.example")].

End Doubles.

(* ===================================================================== *)
(** ** A program logic for handler runs *)

(** [partial P m Q E]: from a store in [P], [m] either returns a value and
    a store in [Q], or throws and leaves a store in [E]. *)
Definition partial {A} (P : Store -> Prop) (m : M A)
           (Q : A -> Store -> Prop) (E : Store -> Prop) : Prop :=
  forall s, P s ->
    match m s with
    | (Return a, s') => Q a s'
    | (Throw _, s') => E s'
    end.

(** [total P m Q]: from a store in [P], [m] returns, with a value and a
    store in [Q]. *)
Definition total {A} (P : Store -> Prop) (m : M A) (Q : A -> Store -> Prop) : Prop :=
  forall s, P s -> exists a s', m s = (Return a, s') /\ Q a s'.

(** The names of the CORS response headers. *)
Definition is_cors_name (n : string) : bool :=
  String.prefix "access-control-" (lowercase n).

(** [h] answers for every CORS name what [createCorsHeaders()] answers. *)
Definition keeps_cors (v : variant) (h : Headers) : Prop :=
  forall n, is_cors_name n = true ->
    Headers.get h n = Headers.get (createCorsHeaders v) n.

(** The identity override of an upstream request. *)
Definition identity_override (h : Headers) : Prop :=
  Headers.get h "Referer" = Some "https://www.douyin.com/"
  /\ Headers.get h "User-Agent" = Some user_agent
  /\ String.prefix "Mozilla/5.0" user_agent = true.

(** An event a handler may emit for [req]: a fetch carries the upstream
    request headers built from [req]. *)
Definition allowed (req : Request) (e : Event) : Prop :=
  match e with
  | CallFetch _ h => h = videoRequestHeaders req
  | _ => True
  end.

(** The invariant of a run of variant [v] on [req]. *)
Definition run_inv (v : variant) (req : Request) (s : Store) : Prop :=
  keeps_cors v (corsHeaders s) /\ Forall (allowed req) (log s).

(** The statuses and bodies the constructor of [Response] accepts. *)
Definition constructible (b : option BodyInit) (st : option Z) : bool :=
  let s := match st with Some s => s | None => 200 end in
  (200 <=? s) && (s <=? 599)
  && match b with Some _ => negb (null_body_status s) | None => true end.

(** The resolver call of the media-relay path. *)
Definition resolver_event (v : variant) (inputUrl : string) : Event :=
  match v with
  | serve_ts | part_000 => CallGetVideoUrl inputUrl
  | part_001 => CallGetVideoInfo inputUrl
  end.

(** What a handler reads of a request: whether it is a preflight, the
    first [url] parameter, whether there is a [data] parameter, and the
    Range header. *)
Definition same_view (r1 r2 : Request) : Prop :=
  String.eqb (method r1) "OPTIONS" = String.eqb (method r2) "OPTIONS"
  /\ URLSearchParams.get (searchParams (url r1)) "url"
     = URLSearchParams.get (searchParams (url r2)) "url"
  /\ URLSearchParams.has (searchParams (url r1)) "data"
     = URLSearchParams.has (searchParams (url r2)) "data"
  /\ Headers.get (req_headers r1) "range" = Headers.get (req_headers r2) "range".

(** The names of the headers that the handlers put on a response. *)
Definition response_header_names : list string :=
  ["access-control-allow-origin"; "access-control-allow-methods";
   "access-control-allow-headers"; "access-control-expose-headers";
   "content-type"; "content-length"; "accept-ranges"; "content-range"].

(** The resolver could not give the media-relay path a video URL:
    [getVideoUrl] throws or returns the empty string (serve.ts);
    [getVideoInfo] throws (part_001). *)
Definition resolution_fails (v : variant) (env : Env) (inputUrl : string) : Prop :=
  match v with
  | serve_ts =>
      (exists e, getVideoUrl env inputUrl = Throw e)
      \/ getVideoUrl env inputUrl = Return EmptyString
  | part_000 => exists e, getVideoUrl env inputUrl = Throw e
  | part_001 => exists e, getVideoInfo env inputUrl = Throw e
  end.

(** Every header of [h] has one of the names of [response_header_names]. *)
Definition known_names (h : Headers) : bool :=
  forallb (fun kv => existsb (String.eqb (lowercase (fst kv))) response_header_names) h.

(** More doubles, for the edges of the handlers. *)
Module EdgeDoubles.
Import Doubles.

(** A resolver that returns an empty URL. *)
Definition env_blank_url : Env :=
  mkEnv (fun _ => Return EmptyString)
        (fun _ => Return video_info)
        (fun _ _ => Return up_200).

(** A video post when the network is down. *)
Definition env_offline : Env :=
  mkEnv (fun _ => Return media_url)
        (fun _ => Return video_info)
        (fun _ _ => Throw (TypeError "error sending request")).

(** Metadata of a type that is neither 'video' nor 'img'. *)
Definition live_info : VideoInfo :=
  mkVideoInfo (Some "live") (Some media_url) "{}".

Definition env_live : Env :=
  mkEnv (fun _ => Return media_url)
        (fun _ => Return live_info)
        (fun _ _ => Return up_200).

Definition req_blank_url : Request :=
  mkRequest "GET" (mkURL [("url", EmptyString); ("data", "1")]) [].

(** The same view as [req_media], by another method and with more
    parameters and headers. *)
Definition req_post : Request :=
  mkRequest "POST" (mkURL [("t", "1"); ("url", share_url); ("url", "other")])
            [("cookie", "sid=1")].

End EdgeDoubles.

(* ===================================================================== *)
(** * Properties *)

(** ** The [Headers] object *)

Module HeadersFacts.

Lemma lower_ascii_idem (c : ascii) : lower_ascii (lower_ascii c) = lower_ascii c.
Proof.
  destruct c as [[] [] [] [] [] [] [] []]; reflexivity.
Qed.

Lemma lowercase_idem (s : string) : lowercase (lowercase s) = lowercase s.
Proof.
  induction s as [|c r IH]; simpl; [reflexivity|].
  now rewrite lower_ascii_idem, IH.
Qed.

Lemma name_eqb_refl (n : string) : name_eqb n n = true.
Proof. apply String.eqb_refl. Qed.

Lemma name_eqb_lowercase_l (n m : string) : name_eqb (lowercase n) m = name_eqb n m.
Proof. unfold name_eqb. now rewrite lowercase_idem. Qed.

Lemma name_eqb_sym (n m : string) : name_eqb n m = name_eqb m n.
Proof. apply String.eqb_sym. Qed.

(** Two names that match a third one the same way. *)
Lemma name_eqb_trans (k n m : string) :
  name_eqb k n = true -> name_eqb k m = name_eqb n m.
Proof.
  unfold name_eqb. intros H. apply String.eqb_eq in H. now rewrite H.
Qed.

Lemma values_remove_same (h : Headers) (n : string) :
  Headers.values (Headers.remove h n) n = [].
Proof.
  induction h as [|[k v] r IH]; simpl; [reflexivity|].
  unfold Headers.values, Headers.remove in *. simpl.
  destruct (name_eqb k n) eqn:E; simpl; [exact IH|].
  rewrite E. exact IH.
Qed.

Lemma values_remove_other (h : Headers) (n m : string) :
  name_eqb n m = false ->
  Headers.values (Headers.remove h n) m = Headers.values h m.
Proof.
  intros Hnm.
  induction h as [|[k v] r IH]; simpl; [reflexivity|].
  unfold Headers.values, Headers.remove in *. simpl.
  destruct (name_eqb k n) eqn:E; simpl.
  - rewrite (name_eqb_trans _ _ m E), Hnm. exact IH.
  - destruct (name_eqb k m); simpl; now rewrite IH.
Qed.

Lemma values_set_same (h : Headers) (n v : string) :
  Headers.values (Headers.set h n v) n = [v].
Proof.
  induction h as [|[k w] r IH]; simpl.
  - unfold Headers.values. simpl.
    now rewrite name_eqb_lowercase_l, name_eqb_refl.
  - destruct (name_eqb k n) eqn:E.
    + unfold Headers.values. simpl. rewrite E. simpl.
      f_equal. apply values_remove_same.
    + unfold Headers.values in *. simpl. rewrite E. exact IH.
Qed.

Lemma values_set_other (h : Headers) (n m v : string) :
  name_eqb n m = false ->
  Headers.values (Headers.set h n v) m = Headers.values h m.
Proof.
  intros Hnm.
  induction h as [|[k w] r IH]; simpl.
  - unfold Headers.values. simpl.
    now rewrite name_eqb_lowercase_l, Hnm.
  - destruct (name_eqb k n) eqn:E.
    + unfold Headers.values. simpl.
      rewrite (name_eqb_trans _ _ m E), Hnm.
      apply values_remove_other, Hnm.
    + unfold Headers.values in *. simpl.
      destruct (name_eqb k m); simpl; now rewrite IH.
Qed.

(** [set] then [get] of the same name, in any letter case. *)
Lemma get_set_same (h : Headers) (n v : string) :
  Headers.get (Headers.set h n v) n = Some v.
Proof. unfold Headers.get. now rewrite values_set_same. Qed.

(** [set] leaves the other names alone. *)
Lemma get_set_other (h : Headers) (n m v : string) :
  name_eqb n m = false ->
  Headers.get (Headers.set h n v) m = Headers.get h m.
Proof. intros H. unfold Headers.get. now rewrite values_set_other. Qed.

Lemma has_values (h : Headers) (n : string) :
  Headers.has h n = negb (match Headers.values h n with [] => true | _ => false end).
Proof.
  unfold Headers.has, Headers.values.
  induction h as [|[k w] r IH]; simpl; [reflexivity|].
  destruct (name_eqb k n); simpl; [reflexivity|exact IH].
Qed.

(** [has] says whether [get] is [null]. *)
Lemma has_false_get (h : Headers) (n : string) :
  Headers.has h n = false <-> Headers.get h n = None.
Proof.
  rewrite has_values. unfold Headers.get.
  destruct (Headers.values h n); simpl; split; intros; congruence.
Qed.

Lemma has_true_get (h : Headers) (n : string) :
  Headers.has h n = true <-> exists v, Headers.get h n = Some v.
Proof.
  rewrite has_values. unfold Headers.get.
  destruct (Headers.values h n); simpl; split; intros H.
  - discriminate.
  - destruct H as [v H]. discriminate.
  - eexists. reflexivity.
  - reflexivity.
Qed.

Lemma has_set_other (h : Headers) (n m v : string) :
  name_eqb n m = false ->
  Headers.has (Headers.set h n v) m = Headers.has h m.
Proof.
  intros H. rewrite !has_values. now rewrite values_set_other.
Qed.

(** Names are matched without regard to letter case. *)
Lemma get_case_insensitive (h : Headers) (n m : string) :
  lowercase n = lowercase m -> Headers.get h n = Headers.get h m.
Proof.
  intros H. unfold Headers.get, Headers.values, name_eqb. now rewrite H.
Qed.

Lemma has_case_insensitive (h : Headers) (n m : string) :
  lowercase n = lowercase m -> Headers.has h n = Headers.has h m.
Proof.
  intros H. unfold Headers.has, name_eqb. now rewrite H.
Qed.

End HeadersFacts.

(** ** The program logic *)

Module ProgramLogic.

Section Rules.
Context {A B : Type}.
Implicit Types (P : Store -> Prop) (E : Store -> Prop).

Lemma partial_ret P (a : A) (Q : A -> Store -> Prop) E :
  (forall s, P s -> Q a s) -> partial P (ret a) Q E.
Proof. intros H s Hs. simpl. auto. Qed.

Lemma partial_throw P (e : Error) (Q : A -> Store -> Prop) E :
  (forall s, P s -> E s) -> partial P (throw e) Q E.
Proof. intros H s Hs. simpl. auto. Qed.

Lemma partial_lift P (o : Outcome A) (Q : A -> Store -> Prop) E :
  (forall s a, P s -> o = Return a -> Q a s) -> (forall s, P s -> E s) ->
  partial P (lift o) Q E.
Proof. intros HQ HE s Hs. unfold lift. destruct o; eauto. Qed.

Lemma partial_bind P (m : M A) (k : A -> M B) R (Q : B -> Store -> Prop) E :
  partial P m R E -> (forall a, partial (R a) (k a) Q E) ->
  partial P (bind m k) Q E.
Proof.
  intros Hm Hk s Hs. unfold bind. specialize (Hm s Hs).
  destruct (m s) as [[a|e] s']; [apply Hk, Hm|exact Hm].
Qed.

Lemma partial_try P (m : M A) (h : Error -> M A) (Q : A -> Store -> Prop) E' E :
  partial P m Q E' -> (forall e, partial E' (h e) Q E) ->
  partial P (try_catch m h) Q E.
Proof.
  intros Hm Hh s Hs. unfold try_catch. specialize (Hm s Hs).
  destruct (m s) as [[a|e] s']; [exact Hm|apply Hh, Hm].
Qed.

Lemma total_partial P (m : M A) (Q : A -> Store -> Prop) E :
  total P m Q -> partial P m Q E.
Proof.
  intros Hm s Hs. destruct (Hm s Hs) as (a & s' & -> & HQ). exact HQ.
Qed.

Lemma total_ret P (a : A) (Q : A -> Store -> Prop) :
  (forall s, P s -> Q a s) -> total P (ret a) Q.
Proof. intros H s Hs. exists a, s. auto. Qed.

Lemma total_bind P (m : M A) (k : A -> M B) R (Q : B -> Store -> Prop) :
  total P m R -> (forall a, total (R a) (k a) Q) -> total P (bind m k) Q.
Proof.
  intros Hm Hk s Hs. unfold bind.
  destruct (Hm s Hs) as (a & s' & -> & HR). apply Hk, HR.
Qed.

(** A try block that keeps [E'] when it throws, with a catch block
    that returns from [E']: the whole statement returns. *)
Lemma total_try P (m : M A) (h : Error -> M A) (Q : A -> Store -> Prop) E' :
  partial P m Q E' -> (forall e, total E' (h e) Q) ->
  total P (try_catch m h) Q.
Proof.
  intros Hm Hh s Hs. unfold try_catch. specialize (Hm s Hs).
  destruct (m s) as [[a|e] s']; [now exists a, s'|apply Hh, Hm].
Qed.

End Rules.

(** The effects, as rules. *)

Lemma total_emit P (e : Event) (Q : unit -> Store -> Prop) :
  (forall s, P s -> Q tt (mkStore (corsHeaders s) (log s ++ [e]))) ->
  total P (emit e) Q.
Proof. intros H s Hs. eexists _, _. split; [reflexivity|auto]. Qed.

Lemma total_let_corsHeaders P (h : Headers) (Q : unit -> Store -> Prop) :
  (forall s, P s -> Q tt (mkStore h (log s))) ->
  total P (let_corsHeaders h) Q.
Proof. intros H s Hs. eexists _, _. split; [reflexivity|auto]. Qed.

Lemma total_corsHeaders_set P (n x : string) (Q : unit -> Store -> Prop) :
  (forall s, P s -> Q tt (mkStore (Headers.set (corsHeaders s) n x) (log s))) ->
  total P (corsHeaders_set n x) Q.
Proof. intros H s Hs. eexists _, _. split; [reflexivity|auto]. Qed.

End ProgramLogic.

(** ** The CORS header set and the constructor of responses *)

Module CorsFacts.
Import HeadersFacts.

Lemma is_cors_name_eqb (n m : string) :
  name_eqb n m = true -> is_cors_name n = is_cors_name m.
Proof.
  unfold name_eqb, is_cors_name. intros H. apply String.eqb_eq in H. now rewrite H.
Qed.

(** A name that is not a CORS name matches none of them. *)
Lemma cors_name_apart (n m : string) :
  is_cors_name n = false -> is_cors_name m = true -> name_eqb n m = false.
Proof.
  intros Hn Hm. destruct (name_eqb n m) eqn:E; [|reflexivity].
  apply is_cors_name_eqb in E. congruence.
Qed.

Lemma values_append_other (h : Headers) (n m x : string) :
  name_eqb n m = false ->
  Headers.values (Headers.append h n x) m = Headers.values h m.
Proof.
  intros H. unfold Headers.values, Headers.append.
  rewrite filter_app, map_app. simpl.
  rewrite name_eqb_lowercase_l, H. simpl. apply app_nil_r.
Qed.

Lemma get_append_other (h : Headers) (n m x : string) :
  name_eqb n m = false ->
  Headers.get (Headers.append h n x) m = Headers.get h m.
Proof. intros H. unfold Headers.get. now rewrite values_append_other. Qed.

(** A header that was absent is there after [append]. *)
Lemma get_append_new (h : Headers) (n x : string) :
  Headers.has h n = false -> Headers.get (Headers.append h n x) n = Some x.
Proof.
  intros H. rewrite has_values in H.
  unfold Headers.get, Headers.values, Headers.append in *.
  rewrite filter_app, map_app. simpl.
  rewrite name_eqb_lowercase_l, name_eqb_refl. simpl.
  destruct (map snd (filter _ h)); [reflexivity|discriminate].
Qed.

Lemma keeps_cors_create (v : variant) : keeps_cors v (createCorsHeaders v).
Proof. intros n _. reflexivity. Qed.

Lemma keeps_cors_set (v : variant) (h : Headers) (n x : string) :
  is_cors_name n = false -> keeps_cors v h -> keeps_cors v (Headers.set h n x).
Proof.
  intros Hn Hh m Hm. rewrite get_set_other; [auto|].
  now apply cors_name_apart.
Qed.

Lemma keeps_cors_append (v : variant) (h : Headers) (n x : string) :
  is_cors_name n = false -> keeps_cors v h -> keeps_cors v (Headers.append h n x).
Proof.
  intros Hn Hh m Hm. rewrite get_append_other; [auto|].
  now apply cors_name_apart.
Qed.

(** What is copied from upstream never touches the CORS set. *)
Lemma keeps_cors_responseHeaders (v : variant) (up : UpstreamResponse) :
  keeps_cors v (responseHeaders (createCorsHeaders v) up).
Proof.
  unfold responseHeaders.
  destruct (Headers.has (up_headers up) "content-range");
    repeat (apply keeps_cors_set; [reflexivity|]); apply keeps_cors_create.
Qed.

Lemma keeps_cors_full (r : Response) (v : variant) :
  relays v = true -> keeps_cors v (headers r) -> full_cors r.
Proof.
  intros Hv H. unfold full_cors.
  rewrite !H by reflexivity.
  destruct v; [|discriminate|]; repeat split; reflexivity.
Qed.

Lemma keeps_cors_narrow (r : Response) :
  keeps_cors part_000 (headers r) -> narrow_cors r.
Proof.
  intros H. unfold narrow_cors.
  rewrite !H by reflexivity. repeat split; reflexivity.
Qed.

(** [new Response] copies the headers and may add a content type. *)
Lemma new_Response_headers (b : option BodyInit) (st : option Z) (h : Headers) (r : Response) :
  new_Response b st h = Return r ->
  headers r = h
  \/ (Headers.has h "Content-Type" = false
      /\ headers r = Headers.append h "Content-Type" "text/plain;charset=UTF-8"
      /\ exists t, b = Some (BodyText t)).
Proof.
  unfold new_Response.
  destruct (negb _); [discriminate|].
  destruct b as [[t|rs]|].
  - destruct (null_body_status _); [discriminate|].
    destruct (Headers.has h "Content-Type") eqn:E; intros [= <-]; simpl; eauto.
  - destruct (null_body_status _); [discriminate|].
    intros [= <-]; simpl; eauto.
  - intros [= <-]; simpl; eauto.
Qed.

Lemma new_Response_status_body (b : option BodyInit) (st : option Z) (h : Headers) (r : Response) :
  new_Response b st h = Return r ->
  status r = match st with Some s => s | None => 200 end /\ body r = b.
Proof.
  unfold new_Response.
  destruct (negb _); [discriminate|].
  destruct b as [[t|rs]|].
  - destruct (null_body_status _); [discriminate|].
    destruct (Headers.has h "Content-Type"); intros [= <-]; simpl; eauto.
  - destruct (null_body_status _); [discriminate|].
    intros [= <-]; simpl; eauto.
  - intros [= <-]; simpl; eauto.
Qed.

Lemma new_Response_keeps_cors (v : variant) b st h r :
  new_Response b st h = Return r -> keeps_cors v h -> keeps_cors v (headers r).
Proof.
  intros Hr Hh. destruct (new_Response_headers _ _ _ _ Hr) as [->|(_ & -> & _)].
  - exact Hh.
  - now apply keeps_cors_append.
Qed.

Lemma new_Response_returns b st h :
  constructible b st = true -> exists r, new_Response b st h = Return r.
Proof.
  unfold constructible, new_Response. intros H.
  apply andb_prop in H as [H1 H2]. rewrite H1. simpl.
  destruct b as [[t|rs]|]; [| |eauto];
    apply negb_true_iff in H2; rewrite H2; [|eauto].
  destruct (Headers.has h "Content-Type"); eauto.
Qed.

(** A successful upstream answer that [fetch] produced can be relayed
    with its own status. *)
Lemma relay_constructible (up : UpstreamResponse) (rs : ReadableStream) :
  ok up = true -> up_body up = Some rs -> fetched up = true ->
  constructible (Some (BodyStream rs)) (Some (up_status up)) = true.
Proof.
  unfold ok, fetched, constructible. intros Hok Hb Hf. rewrite Hb in Hf.
  apply andb_prop in Hok as [H1 H2].
  destruct (null_body_status (up_status up)); [discriminate|].
  rewrite H1. simpl. rewrite andb_true_r. lia.
Qed.

End CorsFacts.

(** ** The invariant of a run *)

Module RunInvariant.
Import ProgramLogic CorsFacts.

Section Inv.
Variables (v : variant) (env : Env) (req : Request).

Let Inv := run_inv v req.
Let Post := fun (r : Response) (s : Store) => keeps_cors v (headers r) /\ Inv s.

Lemma inv_let_corsHeaders :
  total (fun s => log s = []) (let_corsHeaders (createCorsHeaders v)) (fun _ => Inv).
Proof.
  apply total_let_corsHeaders. intros s Hs. split; simpl.
  - apply keeps_cors_create.
  - rewrite Hs. constructor.
Qed.

Lemma inv_emit (e : Event) : allowed req e -> total Inv (emit e) (fun _ => Inv).
Proof.
  intros He. apply total_emit. intros s [Hc Hl]. split; simpl; [exact Hc|].
  apply Forall_app. split; [exact Hl|]. constructor; [exact He|constructor].
Qed.

Lemma inv_console_error (msg : string) (e : Error) :
  total Inv (console_error msg e) (fun _ => Inv).
Proof. apply inv_emit. exact I. Qed.

Lemma inv_corsHeaders_set (n x : string) :
  is_cors_name n = false -> total Inv (corsHeaders_set n x) (fun _ => Inv).
Proof.
  intros Hn. apply total_corsHeaders_set. intros s [Hc Hl]. split; simpl; [|exact Hl].
  now apply keeps_cors_set.
Qed.

(** A call that leaves the handler: its event is logged and it may
    throw. *)
Lemma inv_await {A} (e : Event) (o : Outcome A) :
  allowed req e ->
  partial Inv (bind (emit e) (fun _ => lift o)) (fun _ => Inv) Inv.
Proof.
  intros He. eapply partial_bind with (R := fun _ => Inv).
  - apply total_partial, inv_emit, He.
  - intros ?. apply partial_lift; auto.
Qed.

Lemma inv_await_getVideoUrl (u : string) :
  partial Inv (await_getVideoUrl env u) (fun _ => Inv) Inv.
Proof. apply inv_await. exact I. Qed.

Lemma inv_await_getVideoInfo (u : string) :
  partial Inv (await_getVideoInfo env u) (fun _ => Inv) Inv.
Proof. apply inv_await. exact I. Qed.

Lemma inv_await_fetch (target : string) :
  partial Inv (await_fetch env target (videoRequestHeaders req)) (fun _ => Inv) Inv.
Proof. apply inv_await. reflexivity. Qed.

(** A response built on [corsHeaders], when the constructor may throw. *)
Lemma inv_Response_partial b st :
  partial Inv (Response_with_corsHeaders b st) Post Inv.
Proof.
  intros s Hs. unfold Response_with_corsHeaders.
  destruct (new_Response b st (corsHeaders s)) as [r|e] eqn:E; [|exact Hs].
  split; [|exact Hs]. eapply new_Response_keeps_cors; [exact E|apply Hs].
Qed.

(** A response built on [corsHeaders] from a status and body the
    constructor accepts. *)
Lemma inv_Response_total b st :
  constructible b st = true -> total Inv (Response_with_corsHeaders b st) Post.
Proof.
  intros Hc s Hs. unfold Response_with_corsHeaders.
  destruct (new_Response_returns b st (corsHeaders s) Hc) as [r Hr].
  exists r, s. rewrite Hr. split; [reflexivity|].
  split; [|exact Hs]. eapply new_Response_keeps_cors; [exact Hr|apply Hs].
Qed.

(** A relayed response, built on a fresh CORS set. *)
Lemma inv_relay_Response b st (up : UpstreamResponse) :
  partial Inv (lift (new_Response b st (responseHeaders (createCorsHeaders v) up)))
          Post Inv.
Proof.
  apply partial_lift; [|auto]. intros s r Hs Hr. split; [|exact Hs].
  eapply new_Response_keeps_cors; [exact Hr|apply keeps_cors_responseHeaders].
Qed.

End Inv.

Create HintDb run_inv.
#[local] Hint Resolve inv_console_error inv_await_getVideoUrl inv_await_getVideoInfo
  inv_await_fetch inv_Response_partial inv_relay_Response : run_inv.

(** One step of a proof that a handler keeps the invariant: split a
    sequence or a try statement, or branch with the code. *)
Ltac inv_step v req :=
  lazymatch goal with
  | |- total _ (bind _ _) _ =>
      eapply total_bind with (R := fun _ => run_inv v req); [|intros ?; cbv beta]
  | |- partial _ (bind _ _) _ _ =>
      eapply partial_bind with (R := fun _ => run_inv v req); [|intros ?; cbv beta]
  | |- total _ (try_catch _ _) _ =>
      eapply total_try with (E' := run_inv v req); [|intros ?; cbv beta]
  | |- partial _ (try_catch _ _) _ _ =>
      eapply partial_try with (E' := run_inv v req); [|intros ?; cbv beta]
  | |- total _ (match ?c with _ => _ end) _ => destruct c
  | |- partial _ (match ?c with _ => _ end) _ _ => destruct c
  | |- total _ (corsHeaders_set _ _) _ => apply inv_corsHeaders_set; reflexivity
  | |- partial _ (corsHeaders_set _ _) _ _ =>
      apply total_partial, inv_corsHeaders_set; reflexivity
  | |- total _ (console_error _ _) _ => apply inv_console_error
  | |- total _ (Response_with_corsHeaders _ _) _ => apply inv_Response_total; reflexivity
  | |- partial _ (throw _) _ _ => apply partial_throw; auto
  | |- partial _ (ret _) _ _ => apply partial_ret; auto
  | |- partial _ _ _ _ => solve [eauto with run_inv]
  end.

Lemma serve_ts_keeps env req :
  total (fun s => log s = []) (Serve.handler env req)
        (fun r s => keeps_cors serve_ts (headers r) /\ run_inv serve_ts req s).
Proof.
  unfold Serve.handler.
  eapply total_bind; [apply (inv_let_corsHeaders serve_ts)|intros ?; cbv beta].
  repeat inv_step serve_ts req.
Qed.

Lemma part_000_keeps env req :
  total (fun s => log s = []) (Part000.handler env req)
        (fun r s => keeps_cors part_000 (headers r) /\ run_inv part_000 req s).
Proof.
  unfold Part000.handler.
  eapply total_bind; [apply (inv_let_corsHeaders part_000)|intros ?; cbv beta].
  repeat inv_step part_000 req.
Qed.

Lemma part_001_keeps env req :
  total (fun s => log s = []) (Part001.handler env req)
        (fun r s => keeps_cors part_001 (headers r) /\ run_inv part_001 req s).
Proof.
  unfold Part001.handler.
  eapply total_bind; [apply (inv_let_corsHeaders part_001)|intros ?; cbv beta].
  repeat inv_step part_001 req.
Qed.

(** Every run of every handler resolves to a response; the response
    answers for the CORS names as [createCorsHeaders()] does, and every
    fetch of the run carries the upstream request headers. *)
Theorem handler_returns (v : variant) (env : Env) (req : Request) :
  exists resp l,
    run (handler v env req) = (Return resp, l)
    /\ keeps_cors v (headers resp)
    /\ Forall (allowed req) l.
Proof.
  assert (H : total (fun s => log s = []) (handler v env req)
                (fun r s => keeps_cors v (headers r) /\ run_inv v req s)).
  { destruct v; [apply serve_ts_keeps|apply part_000_keeps|apply part_001_keeps]. }
  destruct (H (mkStore Headers.new []) eq_refl) as (r & s & E & Hr & _ & Hl).
  exists r, (log s). unfold run. rewrite E. auto.
Qed.

End RunInvariant.

(** ** The paths through the handlers *)

Module Paths.
Import HeadersFacts CorsFacts.

(** Unfold a handler and the monad down to the store. *)
Ltac unfold_handler :=
  unfold run, handler, Serve.handler, Part000.handler, Part001.handler,
    await_getVideoInfo, await_getVideoUrl, await_fetch, console_error,
    Response_with_corsHeaders, corsHeaders_set, let_corsHeaders, emit, lift,
    try_catch, bind, ret, throw.

(** Enter a handler on a request that is not a preflight and has a
    non-empty [url] parameter. *)
Ltac enter Hm Hu Ht :=
  apply String.eqb_neq in Hm;
  unfold_handler; rewrite Hm, Hu;
  match type of Ht with truthy ?u = true => destruct u; [discriminate Ht|] end;
  cbn [log corsHeaders app].

Section OnePath.
Variables (env : Env) (req : Request).

Lemma options_run (v : variant) :
  method req = "OPTIONS" ->
  run (handler v env req)
  = (Return (mkResponse 204 (createCorsHeaders v) None), []).
Proof.
  intros H. destruct v; unfold_handler; rewrite H; reflexivity.
Qed.

Lemma missing_url_run (v : variant) :
  method req <> "OPTIONS" ->
  truthy_opt (URLSearchParams.get (searchParams (url req)) "url") = false ->
  exists resp,
    run (handler v env req) = (Return resp, [])
    /\ status resp = 400
    /\ body resp = Some (BodyText "Missing 'url' parameter.")
    /\ Headers.values (headers resp) "Content-Type"
       = [match v with
          | part_001 => "text/plain;charset=UTF-8"
          | _ => "text/plain; charset=utf-8"
          end].
Proof.
  intros Hm Hu. apply String.eqb_neq in Hm.
  destruct v; unfold_handler; rewrite Hm;
    destruct (URLSearchParams.get _ _) as [[|c s]|]; try discriminate Hu;
    eexists; (split; [reflexivity|]); repeat split; reflexivity.
Qed.

Lemma metadata_ok_run (v : variant) (u : string) (d : VideoInfo) :
  metadata_request req u ->
  getVideoInfo env u = Return d ->
  run (handler v env req)
  = (Return (mkResponse 200
               (Headers.set (createCorsHeaders v) "Content-Type"
                            "application/json; charset=utf-8")
               (Some (BodyText (JSON_stringify d)))),
     [CallGetVideoInfo u]).
Proof.
  intros (Hm & Hu & Ht & Hd) Hr.
  destruct v; enter Hm Hu Ht; rewrite ?Hd, Hr; cbn [log corsHeaders app];
    rewrite ?Hd; reflexivity.
Qed.

Lemma metadata_fail_run (v : variant) (u : string) (e : Error) :
  metadata_request req u ->
  getVideoInfo env u = Throw e ->
  exists h msg,
    run (handler v env req)
    = (Return (mkResponse 500 h (Some (BodyText (metadata_error_message v)))),
       [CallGetVideoInfo u; ConsoleError msg e]).
Proof.
  intros (Hm & Hu & Ht & Hd) Hr.
  destruct v; enter Hm Hu Ht; rewrite ?Hd, Hr; cbn [log corsHeaders app];
    eexists _, _; reflexivity.
Qed.

Lemma new_Response_stream (rs : ReadableStream) (st : Z) (h : Headers) :
  constructible (Some (BodyStream rs)) (Some st) = true ->
  new_Response (Some (BodyStream rs)) (Some st) h
  = Return (mkResponse st h (Some (BodyStream rs))).
Proof.
  unfold constructible, new_Response. intros H.
  apply andb_prop in H as [H1 H2]. rewrite H1.
  apply negb_true_iff in H2. rewrite H2. reflexivity.
Qed.

(** The upstream answer is relayed. *)
Lemma relay_ok_run (v : variant) (u target : string)
      (up : UpstreamResponse) (rs : ReadableStream) :
  relays v = true ->
  media_relay_request req u ->
  resolves_to_video v env u target ->
  fetch env target (videoRequestHeaders req) = Return up ->
  ok up = true -> up_body up = Some rs -> fetched up = true ->
  run (handler v env req)
  = (Return (mkResponse (up_status up)
               (responseHeaders (createCorsHeaders v) up)
               (Some (BodyStream rs))),
     [resolver_event v u; CallFetch target (videoRequestHeaders req)]).
Proof.
  intros Hv (Hm & Hu & Ht & Hd) Hres Hf Hok Hb Hfd.
  pose proof (relay_constructible up rs Hok Hb Hfd) as Hc.
  destruct v; [|discriminate Hv|]; simpl in Hres.
  - destruct Hres as [Hr Htt].
    enter Hm Hu Ht. rewrite Hd, Hr, Htt. cbn [negb log corsHeaders app].
    rewrite Hf, Hok, Hb. cbn [negb orb option_map].
    now rewrite new_Response_stream.
  - destruct Hres as (d & Hr & Hty & Hvu & Htt).
    enter Hm Hu Ht. rewrite Hr. cbn [log corsHeaders app].
    rewrite Hd, Hty, Hvu. cbn [strict_eq truthy_opt]. rewrite Htt.
    change ("video" =? "video")%string with true. cbn [andb log corsHeaders app].
    rewrite Hf, Hok, Hb. cbn [negb orb option_map].
    now rewrite new_Response_stream.
Qed.

(** The upstream answer is an error or has no body: the catch block
    answers. *)
Lemma relay_upstream_failure_run (v : variant) (u target : string)
      (up : UpstreamResponse) :
  relays v = true ->
  media_relay_request req u ->
  resolves_to_video v env u target ->
  fetch env target (videoRequestHeaders req) = Return up ->
  ok up = false \/ up_body up = None ->
  exists msg e,
    run (handler v env req)
    = (Return (mkResponse 500
                 (Headers.append (createCorsHeaders v)
                                 "Content-Type" "text/plain;charset=UTF-8")
                 (Some (BodyText (relay_error_message v)))),
       [resolver_event v u; CallFetch target (videoRequestHeaders req);
        ConsoleError msg e]).
Proof.
  intros Hv (Hm & Hu & Ht & Hd) Hres Hf Hbad.
  assert (Hg : negb (ok up)
               || match up_body up with None => true | Some _ => false end = true).
  { destruct Hbad as [-> | ->]; [reflexivity|apply orb_true_r]. }
  destruct v; [|discriminate Hv|]; simpl in Hres.
  - destruct Hres as [Hr Htt].
    enter Hm Hu Ht. rewrite Hd, Hr, Htt. cbn [negb log corsHeaders app].
    rewrite Hf, Hg. cbn [log corsHeaders app].
    eexists _, _. reflexivity.
  - destruct Hres as (d & Hr & Hty & Hvu & Htt).
    enter Hm Hu Ht. rewrite Hr. cbn [log corsHeaders app].
    rewrite Hd, Hty, Hvu. cbn [strict_eq truthy_opt]. rewrite Htt.
    change ("video" =? "video")%string with true. cbn [andb log corsHeaders app].
    rewrite Hf, Hg. cbn [log corsHeaders app].
    eexists _, _. reflexivity.
Qed.

(** Whatever the network answers, the media-relay path of a video
    makes one fetch, of the resolved URL, with the upstream request
    headers. *)
Lemma relay_fetches (v : variant) (u target : string) :
  relays v = true ->
  media_relay_request req u ->
  resolves_to_video v env u target ->
  fetches (snd (run (handler v env req))) = [(target, videoRequestHeaders req)].
Proof.
  intros Hv (Hm & Hu & Ht & Hd) Hres.
  destruct v; [|discriminate Hv|]; simpl in Hres.
  - destruct Hres as [Hr Htt].
    enter Hm Hu Ht. rewrite Hd, Hr, Htt. cbn [negb log corsHeaders app].
    destruct (fetch env _ _) as [up|e]; cbn [log corsHeaders app]; [|reflexivity].
    destruct (negb (ok up) || _); cbn [log corsHeaders app]; [reflexivity|].
    destruct (new_Response _ _ _); reflexivity.
  - destruct Hres as (d & Hr & Hty & Hvu & Htt).
    enter Hm Hu Ht. rewrite Hr. cbn [log corsHeaders app].
    rewrite Hd, Hty, Hvu. cbn [strict_eq truthy_opt]. rewrite Htt.
    change ("video" =? "video")%string with true. cbn [andb log corsHeaders app].
    destruct (fetch env _ _) as [up|e]; cbn [log corsHeaders app]; [|reflexivity].
    destruct (negb (ok up) || _); cbn [log corsHeaders app]; [reflexivity|].
    destruct (new_Response _ _ _); reflexivity.
Qed.

(** part_001 on a gallery: the 400 answer, straight after the
    resolver call. *)
Lemma gallery_run (u : string) (d : VideoInfo) :
  media_relay_request req u ->
  getVideoInfo env u = Return d ->
  type d = Some "img" ->
  run (Part001.handler env req)
  = (Return (mkResponse 400
               (Headers.append Part001.createCorsHeaders
                               "Content-Type" "text/plain;charset=UTF-8")
               (Some (BodyText Part001.gallery_message))),
     [CallGetVideoInfo u]).
Proof.
  intros (Hm & Hu & Ht & Hd) Hr Hty.
  enter Hm Hu Ht. rewrite Hr. cbn [log corsHeaders app].
  rewrite Hd, Hty. reflexivity.
Qed.

(** part_001 on metadata of type 'video' without a usable
    [video_url]: neither branch of the type test is taken. *)
Lemma video_without_url_run (u : string) (d : VideoInfo) :
  media_relay_request req u ->
  getVideoInfo env u = Return d ->
  type d = Some "video" ->
  truthy_opt (video_url d) = false ->
  exists msg,
    run (Part001.handler env req)
    = (Return (mkResponse 500
                 (Headers.append Part001.createCorsHeaders
                                 "Content-Type" "text/plain;charset=UTF-8")
                 (Some (BodyText Part001.internal_error_message))),
       [CallGetVideoInfo u;
        ConsoleError msg (JsError "未知或不支持的内容类型。")]).
Proof.
  intros (Hm & Hu & Ht & Hd) Hr Hty Hvu.
  enter Hm Hu Ht. rewrite Hr. cbn [log corsHeaders app].
  rewrite Hd, Hty, Hvu. cbn [strict_eq].
  change ("video" =? "video")%string with true.
  change ("video" =? "img")%string with false.
  cbn [andb log corsHeaders app].
  eexists. reflexivity.
Qed.

(** serve.ts on the media-relay path answers 500 or with a status
    that [ok] accepts; no branch of it answers 400. *)
Lemma serve_ts_relay_status (u : string) :
  media_relay_request req u ->
  exists resp l,
    run (Serve.handler env req) = (Return resp, l)
    /\ (status resp = 500 \/ 200 <= status resp <= 299).
Proof.
  intros (Hm & Hu & Ht & Hd).
  enter Hm Hu Ht. rewrite Hd.
  destruct (getVideoUrl env _) as [target|e]; cbn [log corsHeaders app];
    [|eexists _, _; split; [reflexivity|left; reflexivity]].
  destruct (truthy target); cbn [negb log corsHeaders app];
    [|eexists _, _; split; [reflexivity|left; reflexivity]].
  destruct (fetch env _ _) as [up|e]; cbn [log corsHeaders app];
    [|eexists _, _; split; [reflexivity|left; reflexivity]].
  destruct (ok up) eqn:Hok; cbn [negb orb];
    [|eexists _, _; split; [reflexivity|left; reflexivity]].
  destruct (up_body up) as [rs|]; cbn [log corsHeaders app option_map];
    [|eexists _, _; split; [reflexivity|left; reflexivity]].
  destruct (new_Response _ _ _) as [r|e] eqn:Hn;
    [|eexists _, _; split; [reflexivity|left; reflexivity]].
  eexists _, _; split; [reflexivity|right].
  apply new_Response_status_body in Hn as [-> _].
  unfold ok in Hok. lia.
Qed.

End OnePath.
End Paths.

(** ** The handlers on the test doubles *)

Module Examples.
Import Doubles.

(** serve.ts relays a ranged request: the Range goes upstream, the 206
    and its Content-Range come back. *)
Example serve_ts_ranged :
  run (Serve.handler env_video req_range)
  = (Return (mkResponse 206
               [("access-control-allow-origin", "*");
                ("access-control-allow-methods", "GET, OPTIONS");
                ("access-control-allow-headers", "Content-Type, Range");
                ("access-control-expose-headers", "Content-Length, Content-Range");
                ("content-type", "video/mp4");
                ("content-length", "100");
                ("accept-ranges", "bytes");
                ("content-range", "bytes 100-199/5000")]
               (Some (BodyStream media_bytes))),
     [CallGetVideoUrl share_url;
      CallFetch media_url
        [("referer", "https://www.douyin.com/"); ("user-agent", user_agent);
         ("range", "bytes=100-199")]]).
Proof. reflexivity. Qed.

(** part_001 turns a gallery away without a fetch. *)
Example part_001_gallery :
  run (Part001.handler env_gallery req_media)
  = (Return (mkResponse 400
               [("access-control-allow-origin", "*");
                ("access-control-allow-methods", "GET, OPTIONS");
                ("access-control-allow-headers", "Content-Type, Range");
                ("access-control-expose-headers", "Content-Length, Content-Range");
                ("content-type", "text/plain;charset=UTF-8")]
               (Some (BodyText Part001.gallery_message))),
     [CallGetVideoInfo share_url]).
Proof. reflexivity. Qed.

(** An upstream 404 is not passed on. *)
Example part_001_upstream_404 :
  fst (run (Part001.handler (env_upstream up_404) req_media))
  = Return (mkResponse 500
              [("access-control-allow-origin", "*");
               ("access-control-allow-methods", "GET, OPTIONS");
               ("access-control-allow-headers", "Content-Type, Range");
               ("access-control-expose-headers", "Content-Length, Content-Range");
               ("content-type", "text/plain;charset=UTF-8")]
              (Some (BodyText Part001.internal_error_message))).
Proof. reflexivity. Qed.

(** The metadata of a gallery is served as JSON by serve.ts. *)
Example serve_ts_metadata :
  run (Serve.handler env_gallery req_data)
  = (Return (mkResponse 200
               [("access-control-allow-origin", "*");
                ("access-control-allow-methods", "GET, OPTIONS");
                ("access-control-allow-headers", "Content-Type, Range");
                ("access-control-expose-headers", "Content-Length, Content-Range");
                ("content-type", "application/json; charset=utf-8")]
               (Some (BodyText "[]"))),
     [CallGetVideoInfo share_url]).
Proof. reflexivity. Qed.

(** Header names match in any letter case, and [set] replaces. *)
Example headers_case :
  Headers.get (Headers.set [("Content-Type", "text/html")] "content-type" "video/mp4")
              "CONTENT-TYPE"
  = Some "video/mp4".
Proof. reflexivity. Qed.

End Examples.

(* ===================================================================== *)
(** * The properties of the specification *)

Import HeadersFacts CorsFacts Paths Doubles.

(** Facts about concrete requests and doubles, by evaluation. *)
Ltac concrete :=
  repeat match goal with
    | |- _ /\ _ => split
    | |- media_relay_request _ _ => unfold media_relay_request
    | |- metadata_request _ _ => unfold metadata_request
    | |- resolves_to_video _ _ _ _ => unfold resolves_to_video
    | |- resolves_to_gallery _ _ => unfold resolves_to_gallery
    | |- _ <> _ => discriminate
    | |- exists _, _ => eexists
    | |- _ = _ => reflexivity
    end.

(** The upstream request headers carry the caller's Range, and nothing
    under that name when the caller sent none. *)
Lemma videoRequestHeaders_range (req : Request) :
  Headers.get (videoRequestHeaders req) "Range" = Headers.get (req_headers req) "Range".
Proof.
  unfold videoRequestHeaders.
  destruct (Headers.has (req_headers req) "range") eqn:E.
  - rewrite get_set_same.
    apply has_true_get in E as [r E].
    rewrite (get_case_insensitive _ "Range" "range") by reflexivity.
    now rewrite E.
  - apply has_false_get in E.
    rewrite (get_case_insensitive (req_headers req) "Range" "range") by reflexivity.
    now rewrite E.
Qed.

(** The relayed headers carry upstream's Content-Range when it has one. *)
Lemma responseHeaders_content_range (cors : Headers) (up : UpstreamResponse) (cr : string) :
  Headers.get (up_headers up) "Content-Range" = Some cr ->
  Headers.get (responseHeaders cors up) "Content-Range" = Some cr.
Proof.
  intros H.
  rewrite (get_case_insensitive _ "Content-Range" "content-range") in H by reflexivity.
  unfold responseHeaders.
  assert (E : Headers.has (up_headers up) "content-range" = true)
    by (apply has_true_get; eauto).
  rewrite E, H. apply get_set_same.
Qed.

(** C1. On the media-relay path of a request that resolves to a video,
    in serve.ts and in part_001: one upstream fetch is made, of the
    resolved URL; if the caller sent a Range header the fetch carries
    exactly that value, and if the caller sent none the fetch has no
    Range header; and when that fetch answers 206 with a Content-Range
    header, the response has status 206 and the same Content-Range.
    ([fetched] is what [fetch] guarantees of its result: a 206 answer has
    a body.) *)
Theorem range_forwarded
  (v : variant) (env : Env) (req : Request) (inputUrl target : string) :
  relays v = true ->
  media_relay_request req inputUrl ->
  resolves_to_video v env inputUrl target ->
  exists h,
    fetches (snd (run (handler v env req))) = [(target, h)]
    /\ (Headers.has (req_headers req) "Range" = true ->
        Headers.get h "Range" = Headers.get (req_headers req) "Range")
    /\ (Headers.has (req_headers req) "Range" = false ->
        Headers.has h "Range" = false)
    /\ (forall up cr,
          fetch env target h = Return up ->
          fetched up = true ->
          up_status up = 206 ->
          Headers.get (up_headers up) "Content-Range" = Some cr ->
          exists resp,
            fst (run (handler v env req)) = Return resp
            /\ status resp = 206
            /\ Headers.get (headers resp) "Content-Range" = Some cr).
Proof.
  intros Hv Hreq Hres. exists (videoRequestHeaders req).
  split; [now apply relay_fetches with (u := inputUrl)|].
  split; [intros _; apply videoRequestHeaders_range|].
  split.
  - intros Hno. apply has_false_get. rewrite videoRequestHeaders_range.
    now apply has_false_get.
  - intros up cr Hf Hfd Hst Hcr.
    assert (Hok : ok up = true) by (unfold ok; rewrite Hst; reflexivity).
    assert (Hb : exists rs, up_body up = Some rs).
    { unfold fetched in Hfd. rewrite Hst in Hfd.
      destruct (up_body up) as [rs|]; [eauto|discriminate]. }
    destruct Hb as [rs Hb].
    rewrite (relay_ok_run env req v inputUrl target up rs) by assumption.
    eexists. split; [reflexivity|]. simpl. split; [exact Hst|].
    now apply responseHeaders_content_range.
Qed.

Lemma range_forwarded_witness :
  relays serve_ts = true
  /\ media_relay_request req_range share_url
  /\ resolves_to_video serve_ts env_video share_url media_url
  /\ exists h,
      fetches (snd (run (handler serve_ts env_video req_range))) = [(media_url, h)]
      /\ (Headers.has (req_headers req_range) "Range" = true ->
          Headers.get h "Range" = Headers.get (req_headers req_range) "Range")
      /\ (Headers.has (req_headers req_range) "Range" = false ->
          Headers.has h "Range" = false)
      /\ (forall up cr,
            fetch env_video media_url h = Return up ->
            fetched up = true ->
            up_status up = 206 ->
            Headers.get (up_headers up) "Content-Range" = Some cr ->
            exists resp,
              fst (run (handler serve_ts env_video req_range)) = Return resp
              /\ status resp = 206
              /\ Headers.get (headers resp) "Content-Range" = Some cr).
Proof.
  split; [reflexivity|]. split; [solve [concrete]|]. split; [solve [concrete]|].
  apply (range_forwarded serve_ts env_video req_range share_url media_url);
    solve [concrete].
Defined.

(** C2, as stated, fails on part_000: its [createCorsHeaders] allows the
    request header Content-Type only and exposes nothing, so the error
    response below lacks two of the four values of the full set. *)
Lemma full_cors_counterexample :
  run (handler part_000 env_failing req_media)
  = (Return (mkResponse 500
               [("access-control-allow-origin", "*");
                ("access-control-allow-methods", "GET, OPTIONS");
                ("access-control-allow-headers", "Content-Type");
                ("content-type", "text/plain; charset=utf-8")]
               (Some (BodyText "An internal server error occurred."))),
     [CallGetVideoUrl share_url;
      ConsoleError ("Error processing request for URL " ++ dquote ++ share_url
                    ++ dquote ++ ":")
                   (JsError "parse failed")])
  /\ ~ full_cors (mkResponse 500
               [("access-control-allow-origin", "*");
                ("access-control-allow-methods", "GET, OPTIONS");
                ("access-control-allow-headers", "Content-Type");
                ("content-type", "text/plain; charset=utf-8")]
               (Some (BodyText "An internal server error occurred."))).
Proof.
  split; [reflexivity|].
  intros (_ & _ & H & _). discriminate H.
Qed.

(** C2, amended.  Every run resolves to a response, on every path.  The
    responses of serve.ts and of part_001 carry the full CORS set; those of
    part_000 carry the origin and methods values, allow the request header
    Content-Type only and expose nothing. *)
Theorem cors_on_every_response (env : Env) (req : Request) :
  (exists resp l, run (Serve.handler env req) = (Return resp, l) /\ full_cors resp)
  /\ (exists resp l, run (Part001.handler env req) = (Return resp, l) /\ full_cors resp)
  /\ (exists resp l, run (Part000.handler env req) = (Return resp, l) /\ narrow_cors resp).
Proof.
  repeat split.
  - destruct (RunInvariant.handler_returns serve_ts env req) as (r & l & E & Hc & _).
    exists r, l. split; [exact E|]. now apply keeps_cors_full with (v := serve_ts).
  - destruct (RunInvariant.handler_returns part_001 env req) as (r & l & E & Hc & _).
    exists r, l. split; [exact E|]. now apply keeps_cors_full with (v := part_001).
  - destruct (RunInvariant.handler_returns part_000 env req) as (r & l & E & Hc & _).
    exists r, l. split; [exact E|]. now apply keeps_cors_narrow.
Qed.

(** The relayed headers: what [a || b] copies. *)
Lemma responseHeaders_copied (cors : Headers) (up : UpstreamResponse) :
  Headers.get (responseHeaders cors up) "Content-Type"
  = Some (or_default (Headers.get (up_headers up) "Content-Type") "video/mp4")
  /\ Headers.get (responseHeaders cors up) "Content-Length"
     = Some (or_default (Headers.get (up_headers up) "Content-Length") "0")
  /\ Headers.get (responseHeaders cors up) "Accept-Ranges" = Some "bytes".
Proof.
  unfold responseHeaders.
  destruct (Headers.has (up_headers up) "content-range").
  - rewrite !(get_set_other _ "Content-Range") by reflexivity.
    rewrite !(get_set_other _ "Accept-Ranges" "Content-Type") by reflexivity.
    rewrite !(get_set_other _ "Accept-Ranges" "Content-Length") by reflexivity.
    rewrite !(get_set_other _ "Content-Length" "Content-Type") by reflexivity.
    rewrite !get_set_same. auto.
  - rewrite !(get_set_other _ "Accept-Ranges" "Content-Type") by reflexivity.
    rewrite !(get_set_other _ "Accept-Ranges" "Content-Length") by reflexivity.
    rewrite !(get_set_other _ "Content-Length" "Content-Type") by reflexivity.
    rewrite !get_set_same. auto.
Qed.

(** part_000 on the media-relay path: the resolved URL, as text. *)
Lemma pass_through_run (env : Env) (req : Request) (u target : string) :
  media_relay_request req u ->
  getVideoUrl env u = Return target ->
  run (Part000.handler env req)
  = (Return (mkResponse 200
               (Headers.set Part000.createCorsHeaders "Content-Type"
                            "text/plain; charset=utf-8")
               (Some (BodyText target))),
     [CallGetVideoUrl u]).
Proof.
  intros (Hm & Hu & Ht & Hd) Hr.
  enter Hm Hu Ht. rewrite Hd, Hr. reflexivity.
Qed.

(** C3, as stated, fails twice.  part_000 answers the media-relay request
    of a video with the resolved URL as a text body and makes no fetch.
    And serve.ts does not copy a Content-Type that upstream sends with an
    empty value: [a || b] takes the default for it. *)
Lemma relay_counterexample :
  media_relay_request req_media share_url
  /\ resolves_to_video part_000 env_video share_url media_url
  /\ run (handler part_000 env_video req_media)
  = (Return (mkResponse 200
               [("access-control-allow-origin", "*");
                ("access-control-allow-methods", "GET, OPTIONS");
                ("access-control-allow-headers", "Content-Type");
                ("content-type", "text/plain; charset=utf-8")]
               (Some (BodyText media_url))),
     [CallGetVideoUrl share_url])
  /\ Headers.get (up_headers up_blank_type) "Content-Type" = Some EmptyString
  /\ run (handler serve_ts (env_upstream up_blank_type) req_media)
     = (Return (mkResponse 200
                  [("access-control-allow-origin", "*");
                   ("access-control-allow-methods", "GET, OPTIONS");
                   ("access-control-allow-headers", "Content-Type, Range");
                   ("access-control-expose-headers", "Content-Length, Content-Range");
                   ("content-type", "video/mp4");
                   ("content-length", "5000");
                   ("accept-ranges", "bytes")]
                  (Some (BodyStream media_bytes))),
        [CallGetVideoUrl share_url;
         CallFetch media_url
           [("referer", "https://www.douyin.com/"); ("user-agent", user_agent)]])
  /\ (forall rs, Some (BodyText media_url) <> Some (BodyStream rs))
  /\ Some "video/mp4" <> Headers.get (up_headers up_blank_type) "Content-Type".
Proof.
  repeat split; discriminate.
Qed.

(** C3, amended.  In serve.ts and in part_001, on the media-relay path of
    a request that resolves to a video, when the fetch answers with a
    status from 200 to 299 and a body: the response body is the upstream
    stream, the status is the upstream status, Content-Type is upstream's
    when it is present and not empty and 'video/mp4' otherwise,
    Content-Length is upstream's when it is present and not empty and '0'
    otherwise, and Accept-Ranges is 'bytes'.  ([fetched] is what [fetch]
    guarantees of its result: an answer with a body has no null body
    status, so the constructor of [Response] accepts it.) *)
Theorem successful_fetch_relayed
  (v : variant) (env : Env) (req : Request) (inputUrl target : string)
  (up : UpstreamResponse) (rs : ReadableStream) :
  relays v = true ->
  media_relay_request req inputUrl ->
  resolves_to_video v env inputUrl target ->
  fetch env target (videoRequestHeaders req) = Return up ->
  fetched up = true ->
  200 <= up_status up <= 299 ->
  up_body up = Some rs ->
  exists resp l,
    run (handler v env req) = (Return resp, l)
    /\ body resp = Some (BodyStream rs)
    /\ status resp = up_status up
    /\ (forall ct, Headers.get (up_headers up) "Content-Type" = Some ct ->
                   ct <> EmptyString ->
                   Headers.get (headers resp) "Content-Type" = Some ct)
    /\ (Headers.get (up_headers up) "Content-Type" = None
        \/ Headers.get (up_headers up) "Content-Type" = Some EmptyString ->
        Headers.get (headers resp) "Content-Type" = Some "video/mp4")
    /\ (forall cl, Headers.get (up_headers up) "Content-Length" = Some cl ->
                   cl <> EmptyString ->
                   Headers.get (headers resp) "Content-Length" = Some cl)
    /\ (Headers.get (up_headers up) "Content-Length" = None
        \/ Headers.get (up_headers up) "Content-Length" = Some EmptyString ->
        Headers.get (headers resp) "Content-Length" = Some "0")
    /\ Headers.get (headers resp) "Accept-Ranges" = Some "bytes".
Proof.
  intros Hv Hreq Hres Hf Hfd Hst Hb.
  assert (Hok : ok up = true) by (unfold ok; apply andb_true_intro; lia).
  rewrite (relay_ok_run env req v inputUrl target up rs) by assumption.
  eexists _, _. split; [reflexivity|]. simpl.
  destruct (responseHeaders_copied (createCorsHeaders v) up) as (Hct & Hcl & Har).
  rewrite Hct, Hcl, Har.
  repeat split.
  - intros ct -> Hne. destruct ct; [congruence|reflexivity].
  - intros [-> | ->]; reflexivity.
  - intros cl -> Hne. destruct cl; [congruence|reflexivity].
  - intros [-> | ->]; reflexivity.
Qed.

Lemma successful_fetch_relayed_witness :
  relays part_001 = true
  /\ media_relay_request req_media share_url
  /\ resolves_to_video part_001 env_video share_url media_url
  /\ fetch env_video media_url (videoRequestHeaders req_media) = Return up_200
  /\ fetched up_200 = true
  /\ 200 <= up_status up_200 <= 299
  /\ up_body up_200 = Some media_bytes
  /\ exists resp l,
      run (handler part_001 env_video req_media) = (Return resp, l)
      /\ body resp = Some (BodyStream media_bytes)
      /\ status resp = up_status up_200
      /\ (forall ct, Headers.get (up_headers up_200) "Content-Type" = Some ct ->
                     ct <> EmptyString ->
                     Headers.get (headers resp) "Content-Type" = Some ct)
      /\ (Headers.get (up_headers up_200) "Content-Type" = None
          \/ Headers.get (up_headers up_200) "Content-Type" = Some EmptyString ->
          Headers.get (headers resp) "Content-Type" = Some "video/mp4")
      /\ (forall cl, Headers.get (up_headers up_200) "Content-Length" = Some cl ->
                     cl <> EmptyString ->
                     Headers.get (headers resp) "Content-Length" = Some cl)
      /\ (Headers.get (up_headers up_200) "Content-Length" = None
          \/ Headers.get (up_headers up_200) "Content-Length" = Some EmptyString ->
          Headers.get (headers resp) "Content-Length" = Some "0")
      /\ Headers.get (headers resp) "Accept-Ranges" = Some "bytes".
Proof.
  split; [reflexivity|]. split; [solve [concrete]|]. split; [solve [concrete]|].
  split; [reflexivity|]. split; [reflexivity|]. split; [simpl; lia|].
  split; [reflexivity|].
  apply (successful_fetch_relayed part_001 env_video req_media share_url media_url
           up_200 media_bytes);
    solve [concrete | simpl; lia].
Defined.

(** C4, as stated, fails on serve.ts, which never looks at the content
    type: on a gallery post whose video URL cannot be resolved it answers
    500, not a 400-class status. *)
Lemma gallery_counterexample :
  media_relay_request req_media share_url
  /\ resolves_to_gallery env_gallery share_url
  /\ run (handler serve_ts env_gallery req_media)
     = (Return (mkResponse 500
                  [("access-control-allow-origin", "*");
                   ("access-control-allow-methods", "GET, OPTIONS");
                   ("access-control-allow-headers", "Content-Type, Range");
                   ("access-control-expose-headers", "Content-Length, Content-Range");
                   ("content-type", "text/plain;charset=UTF-8")]
                  (Some (BodyText "An internal server error occurred while proxying video."))),
        [CallGetVideoUrl share_url;
         ConsoleError ("Error proxying request for URL " ++ dquote ++ share_url
                       ++ dquote ++ ":")
                      (JsError "no video in this post")])
  /\ ~ (400 <= 500 <= 499).
Proof.
  split; [solve [concrete]|]. split; [solve [concrete]|].
  split; [reflexivity|lia].
Qed.

(** C4, amended.  On the media-relay path of a request whose metadata has
    type 'img', part_001 answers 400 with its guidance text and makes no
    upstream fetch.  serve.ts has no content type to branch on: on the
    same request it answers 500 or with a status from 200 to 299, never
    with a 400-class status. *)
Theorem gallery_rejected (env : Env) (req : Request) (inputUrl : string) :
  media_relay_request req inputUrl ->
  resolves_to_gallery env inputUrl ->
  (exists resp l,
      run (handler part_001 env req) = (Return resp, l)
      /\ status resp = 400
      /\ body resp = Some (BodyText Part001.gallery_message)
      /\ fetches l = [])
  /\ (exists resp l,
         run (handler serve_ts env req) = (Return resp, l)
         /\ (status resp = 500 \/ 200 <= status resp <= 299)).
Proof.
  intros Hreq (d & Hd & Hty). split.
  - simpl handler. rewrite (gallery_run env req inputUrl d) by assumption.
    eexists _, _. repeat split.
  - now apply serve_ts_relay_status with (u := inputUrl).
Qed.

Lemma gallery_rejected_witness :
  media_relay_request req_media share_url
  /\ resolves_to_gallery env_gallery share_url
  /\ (exists resp l,
         run (handler part_001 env_gallery req_media) = (Return resp, l)
         /\ status resp = 400
         /\ body resp = Some (BodyText Part001.gallery_message)
         /\ fetches l = [])
  /\ (exists resp l,
         run (handler serve_ts env_gallery req_media) = (Return resp, l)
         /\ (status resp = 500 \/ 200 <= status resp <= 299)).
Proof.
  split; [solve [concrete]|]. split; [solve [concrete]|].
  apply (gallery_rejected env_gallery req_media share_url); solve [concrete].
Defined.

(** C5. A request that is not a preflight and has no [url] parameter is
    answered 400 with content type text/plain, and the run makes no call
    at all: the log is empty, so neither [getVideoInfo] nor [getVideoUrl]
    is called.  This holds in the three variants. *)
Theorem missing_url_rejected (v : variant) (env : Env) (req : Request) :
  method req <> "OPTIONS" ->
  URLSearchParams.get (searchParams (url req)) "url" = None ->
  exists resp,
    run (handler v env req) = (Return resp, [])
    /\ status resp = 400
    /\ content_type resp = Some "text/plain"
    /\ resolver_calls (snd (run (handler v env req))) = [].
Proof.
  intros Hm Hu.
  destruct (missing_url_run env req v Hm) as (resp & E & Hs & _ & Hct).
  { now rewrite Hu. }
  exists resp. rewrite E. repeat split; [exact Hs|].
  unfold content_type, Headers.get. rewrite Hct. destruct v; reflexivity.
Qed.

Lemma missing_url_rejected_witness :
  method req_no_url <> "OPTIONS"
  /\ URLSearchParams.get (searchParams (url req_no_url)) "url" = None
  /\ exists resp,
      run (handler part_001 env_video req_no_url) = (Return resp, [])
      /\ status resp = 400
      /\ content_type resp = Some "text/plain"
      /\ resolver_calls (snd (run (handler part_001 env_video req_no_url))) = [].
Proof.
  split; [discriminate|]. split; [reflexivity|].
  apply (missing_url_rejected part_001 env_video req_no_url);
    [discriminate|reflexivity].
Defined.

(** C6, as stated, fails: the guard is [!videoResponse.ok], so an upstream
    status that is neither 200 nor 206 but lies in 200..299 is relayed
    with its body.  Here upstream answers 203. *)
Lemma upstream_failure_counterexample :
  media_relay_request req_media share_url
  /\ resolves_to_video serve_ts (env_upstream up_203) share_url media_url
  /\ up_status up_203 <> 200 /\ up_status up_203 <> 206
  /\ run (handler serve_ts (env_upstream up_203) req_media)
     = (Return (mkResponse 203
                  [("access-control-allow-origin", "*");
                   ("access-control-allow-methods", "GET, OPTIONS");
                   ("access-control-allow-headers", "Content-Type, Range");
                   ("access-control-expose-headers", "Content-Length, Content-Range");
                   ("content-type", "video/mp4");
                   ("content-length", "5000");
                   ("accept-ranges", "bytes")]
                  (Some (BodyStream media_bytes))),
        [CallGetVideoUrl share_url;
         CallFetch media_url
           [("referer", "https://www.douyin.com/"); ("user-agent", user_agent)]])
  /\ ~ (500 <= 203 <= 599)
  /\ Some (BodyStream media_bytes) = option_map BodyStream (up_body up_203).
Proof.
  split; [solve [concrete]|]. split; [solve [concrete]|].
  repeat split; try discriminate. lia.
Qed.

(** C6, amended.  In serve.ts and in part_001, on the media-relay path of
    a request that resolves to a video: if the status of the upstream
    answer lies outside 200..299, or its body is absent, the response is
    500 with the fixed text of the handler as its body; the upstream
    status and the upstream body do not reach the caller. *)
Theorem upstream_failure_is_500
  (v : variant) (env : Env) (req : Request) (inputUrl target : string)
  (up : UpstreamResponse) :
  relays v = true ->
  media_relay_request req inputUrl ->
  resolves_to_video v env inputUrl target ->
  fetch env target (videoRequestHeaders req) = Return up ->
  (up_status up < 200 \/ 299 < up_status up) \/ up_body up = None ->
  exists resp l,
    run (handler v env req) = (Return resp, l)
    /\ status resp = 500
    /\ body resp = Some (BodyText (relay_error_message v)).
Proof.
  intros Hv Hreq Hres Hf Hbad.
  destruct (relay_upstream_failure_run env req v inputUrl target up)
    as (msg & e & E); try assumption.
  { destruct Hbad as [Hst|Hb]; [left|now right].
    unfold ok. apply andb_false_iff. lia. }
  rewrite E. eexists _, _. repeat split.
Qed.

Lemma upstream_failure_is_500_witness :
  relays serve_ts = true
  /\ media_relay_request req_media share_url
  /\ resolves_to_video serve_ts (env_upstream up_404) share_url media_url
  /\ fetch (env_upstream up_404) media_url (videoRequestHeaders req_media) = Return up_404
  /\ ((up_status up_404 < 200 \/ 299 < up_status up_404) \/ up_body up_404 = None)
  /\ exists resp l,
      run (handler serve_ts (env_upstream up_404) req_media) = (Return resp, l)
      /\ status resp = 500
      /\ body resp = Some (BodyText (relay_error_message serve_ts)).
Proof.
  split; [reflexivity|]. split; [solve [concrete]|]. split; [solve [concrete]|].
  split; [reflexivity|]. split; [left; right; simpl; lia|].
  apply (upstream_failure_is_500 serve_ts (env_upstream up_404) req_media
           share_url media_url up_404);
    [reflexivity|solve [concrete]|solve [concrete]|reflexivity|left; right; simpl; lia].
Defined.

(** C7. On the metadata path (not a preflight, a non-empty [url]
    parameter, a [data] parameter), in the three variants: when
    [getVideoInfo] returns, the response is 200 with content type
    application/json and the JSON text of what it returned as body,
    whatever the type of the content; when [getVideoInfo] throws, the
    response is 500 and its body is the fixed text of the handler, so
    nothing of the resolver's data reaches the caller. *)
Theorem metadata_served (v : variant) (env : Env) (req : Request) (inputUrl : string) :
  metadata_request req inputUrl ->
  (forall d, getVideoInfo env inputUrl = Return d ->
     exists resp l,
       run (handler v env req) = (Return resp, l)
       /\ status resp = 200
       /\ content_type resp = Some "application/json"
       /\ body resp = Some (BodyText (JSON_stringify d)))
  /\ (forall e, getVideoInfo env inputUrl = Throw e ->
        exists resp l,
          run (handler v env req) = (Return resp, l)
          /\ status resp = 500
          /\ body resp = Some (BodyText (metadata_error_message v))).
Proof.
  intros Hreq. split.
  - intros d Hd. rewrite (metadata_ok_run env req v inputUrl d) by assumption.
    eexists _, _. repeat split.
    unfold content_type. simpl headers. now rewrite get_set_same.
  - intros e He.
    destruct (metadata_fail_run env req v inputUrl e) as (h & msg & E); try assumption.
    rewrite E. eexists _, _. repeat split.
Qed.

Lemma metadata_served_witness :
  metadata_request req_data share_url
  /\ (forall d, getVideoInfo env_gallery share_url = Return d ->
        exists resp l,
          run (handler serve_ts env_gallery req_data) = (Return resp, l)
          /\ status resp = 200
          /\ content_type resp = Some "application/json"
          /\ body resp = Some (BodyText (JSON_stringify d)))
  /\ (forall e, getVideoInfo env_gallery share_url = Throw e ->
        exists resp l,
          run (handler serve_ts env_gallery req_data) = (Return resp, l)
          /\ status resp = 500
          /\ body resp = Some (BodyText (metadata_error_message serve_ts))).
Proof.
  split; [solve [concrete]|].
  apply (metadata_served serve_ts env_gallery req_data share_url); solve [concrete].
Defined.

(** The upstream request headers always carry the identity override. *)
Lemma videoRequestHeaders_identity (req : Request) :
  identity_override (videoRequestHeaders req).
Proof.
  unfold identity_override, videoRequestHeaders.
  destruct (Headers.has (req_headers req) "range").
  - rewrite !(get_set_other _ "Range") by reflexivity. repeat split.
  - repeat split.
Qed.

(** C8. Every upstream fetch of every run, in the three variants, carries
    Referer 'https://www.douyin.com/' and the User-Agent of a desktop
    Chrome, which starts with 'Mozilla/5.0'. *)
Theorem fetch_carries_identity
  (v : variant) (env : Env) (req : Request) (target : string) (h : Headers) :
  In (CallFetch target h) (snd (run (handler v env req))) ->
  Headers.get h "Referer" = Some "https://www.douyin.com/"
  /\ Headers.get h "User-Agent" = Some user_agent
  /\ String.prefix "Mozilla/5.0" user_agent = true.
Proof.
  intros Hin.
  destruct (RunInvariant.handler_returns v env req) as (r & l & E & _ & Hl).
  rewrite E in Hin. simpl in Hin.
  rewrite Forall_forall in Hl. specialize (Hl _ Hin). simpl in Hl. subst h.
  apply videoRequestHeaders_identity.
Qed.

Lemma fetch_carries_identity_witness :
  In (CallFetch media_url
        [("referer", "https://www.douyin.com/"); ("user-agent", user_agent);
         ("range", "bytes=100-199")])
     (snd (run (handler part_001 env_video req_range)))
  /\ Headers.get [("referer", "https://www.douyin.com/"); ("user-agent", user_agent);
                  ("range", "bytes=100-199")] "Referer"
     = Some "https://www.douyin.com/"
  /\ Headers.get [("referer", "https://www.douyin.com/"); ("user-agent", user_agent);
                  ("range", "bytes=100-199")] "User-Agent"
     = Some user_agent
  /\ String.prefix "Mozilla/5.0" user_agent = true.
Proof.
  split; [simpl; auto|].
  apply (fetch_carries_identity part_001 env_video req_range media_url).
  simpl; auto.
Defined.

(** C9. A request with method OPTIONS is answered 204 with no body and
    the headers [createCorsHeaders()] returns, nothing more; the answer
    depends neither on the query nor on the resolver, and the run makes no
    call: the log is empty.  In serve.ts and in part_001 those headers are
    the four of the full CORS set. *)
Theorem preflight_answered (v : variant) (env : Env) (req : Request) :
  relays v = true ->
  method req = "OPTIONS" ->
  run (handler v env req)
  = (Return (mkResponse 204
               [("access-control-allow-origin", "*");
                ("access-control-allow-methods", "GET, OPTIONS");
                ("access-control-allow-headers", "Content-Type, Range");
                ("access-control-expose-headers", "Content-Length, Content-Range")]
               None),
     []).
Proof.
  intros Hv Hm. rewrite options_run by assumption.
  destruct v; [reflexivity|discriminate Hv|reflexivity].
Qed.

Lemma preflight_answered_witness :
  relays serve_ts = true
  /\ method req_options = "OPTIONS"
  /\ run (handler serve_ts env_failing req_options)
     = (Return (mkResponse 204
                  [("access-control-allow-origin", "*");
                   ("access-control-allow-methods", "GET, OPTIONS");
                   ("access-control-allow-headers", "Content-Type, Range");
                   ("access-control-expose-headers", "Content-Length, Content-Range")]
                  None),
        []).
Proof.
  split; [reflexivity|]. split; [reflexivity|].
  apply (preflight_answered serve_ts env_failing req_options); reflexivity.
Defined.

(** C10. In part_001, on the media-relay path, metadata of type 'video'
    whose [video_url] is null or empty reaches the final else branch: the
    error of unknown content is thrown and logged, the response is 500
    (not the 400 of a gallery), and no upstream fetch is made. *)
Theorem video_without_url_is_500
  (env : Env) (req : Request) (inputUrl : string) (d : VideoInfo) :
  media_relay_request req inputUrl ->
  getVideoInfo env inputUrl = Return d ->
  type d = Some "video" ->
  video_url d = None \/ video_url d = Some EmptyString ->
  exists resp l msg,
    run (handler part_001 env req) = (Return resp, l)
    /\ status resp = 500
    /\ body resp = Some (BodyText Part001.internal_error_message)
    /\ fetches l = []
    /\ In (ConsoleError msg (JsError "未知或不支持的内容类型。")) l.
Proof.
  intros Hreq Hd Hty Hvu.
  destruct (video_without_url_run env req inputUrl d) as (msg & E); try assumption.
  { destruct Hvu as [-> | ->]; reflexivity. }
  simpl handler. rewrite E. eexists _, _, msg. repeat split.
  simpl. auto.
Qed.

Lemma video_without_url_is_500_witness :
  media_relay_request req_media share_url
  /\ getVideoInfo env_video_without_url share_url = Return video_without_url
  /\ type video_without_url = Some "video"
  /\ (video_url video_without_url = None
      \/ video_url video_without_url = Some EmptyString)
  /\ exists resp l msg,
      run (handler part_001 env_video_without_url req_media) = (Return resp, l)
      /\ status resp = 500
      /\ body resp = Some (BodyText Part001.internal_error_message)
      /\ fetches l = []
      /\ In (ConsoleError msg (JsError "未知或不支持的内容类型。")) l.
Proof.
  split; [solve [concrete]|]. split; [reflexivity|]. split; [reflexivity|].
  split; [left; reflexivity|].
  apply (video_without_url_is_500 env_video_without_url req_media share_url
           video_without_url);
    [solve [concrete]|reflexivity|reflexivity|left; reflexivity].
Defined.

(* ===================================================================== *)
(** * Further properties of the handlers *)

Import EdgeDoubles.

(** ** Exploring every path of a handler *)

Lemma new_Response_stream_inv (rs : ReadableStream) (st : Z) (h : Headers) (r : Response) :
  new_Response (Some (BodyStream rs)) (Some st) h = Return r ->
  r = mkResponse st h (Some (BodyStream rs)).
Proof.
  unfold new_Response.
  destruct (negb _); [discriminate|].
  destruct (null_body_status st); [discriminate|].
  now intros [= <-].
Qed.

Ltac tidy := cbn [log corsHeaders app negb orb andb option_map].

(** Branch on the next test of the unfolded handler. *)
Ltac explore_step :=
  match goal with
  | |- context [String.eqb (method ?r) "OPTIONS"] =>
      destruct (String.eqb (method r) "OPTIONS") eqn:?
  | |- context [match URLSearchParams.get ?p ?n with _ => _ end] =>
      destruct (URLSearchParams.get p n) as [[|? ?]|] eqn:?
  | |- context [if URLSearchParams.has ?p ?n then _ else _] =>
      destruct (URLSearchParams.has p n) eqn:?
  | |- context [match getVideoInfo ?e ?u with _ => _ end] =>
      destruct (getVideoInfo e u) eqn:?
  | |- context [match getVideoUrl ?e ?u with _ => _ end] =>
      destruct (getVideoUrl e u) eqn:?
  | |- context [if negb (truthy ?x) then _ else _] => destruct (truthy x) eqn:?
  | |- context [if strict_eq ?a ?b && truthy_opt ?c then _ else _] =>
      destruct (strict_eq a b) eqn:?; [destruct (truthy_opt c) eqn:?|]
  | |- context [if strict_eq ?a ?b then _ else _] => destruct (strict_eq a b) eqn:?
  | |- context [match fetch ?e ?u ?h with _ => _ end] =>
      destruct (fetch e u h) eqn:?
  | |- context [negb (ok ?u)] => destruct (ok u) eqn:?
  | |- context [match up_body ?u with _ => _ end] => destruct (up_body u) eqn:?
  | |- context [match new_Response ?b (Some (up_status ?u)) ?h with _ => _ end] =>
      let E := fresh "E" in
      destruct (new_Response b (Some (up_status u)) h) eqn:E;
      [apply new_Response_stream_inv in E; subst|]
  end; tidy.

Ltac explore := unfold_handler; tidy; repeat explore_step.

(** Close a leaf: the run is known, a fact about it is left. *)
Ltac leaf := eexists _, _; split; [reflexivity|]; cbn [status headers body fst snd].

Lemma strict_eq_true (o : option string) (s : string) :
  strict_eq o s = true -> o = Some s.
Proof.
  destruct o as [x|]; simpl; [|discriminate].
  intros H. apply String.eqb_eq in H. now subst.
Qed.

Lemma truthy_opt_true (o : option string) :
  truthy_opt o = true -> exists s, o = Some s /\ truthy s = true.
Proof. destruct o as [s|]; simpl; [eauto|discriminate]. Qed.

(** X8. Every response has a status from 200 to 299, or 400, or 500; and a
    400 is answered only when the [url] parameter is missing or empty, or,
    in part_001, when the metadata has type 'img'. *)
Theorem status_classes (v : variant) (env : Env) (req : Request) :
  exists resp l,
    run (handler v env req) = (Return resp, l)
    /\ (200 <= status resp <= 299
        \/ (status resp = 400
            /\ (truthy_opt (URLSearchParams.get (searchParams (url req)) "url") = false
                \/ (v = part_001
                    /\ exists u, URLSearchParams.get (searchParams (url req)) "url" = Some u
                                 /\ resolves_to_gallery env u)))
        \/ status resp = 500).
Proof.
  destruct v; explore; leaf;
    try (left; lia); try (right; right; reflexivity);
    try (right; left; split; [reflexivity|left; reflexivity]).
  - left. unfold ok in *. lia.
  - left. unfold ok in *. lia.
  - right; left. split; [reflexivity|right]. split; [reflexivity|].
    eexists. split; [reflexivity|]. eexists. split; [eassumption|].
    now apply strict_eq_true.
  - right; left. split; [reflexivity|right]. split; [reflexivity|].
    eexists. split; [reflexivity|]. eexists. split; [eassumption|].
    now apply strict_eq_true.
Qed.

(** X9. Every response with status 400 or more is plain text: its body is
    a string and its content type is text/plain. *)
Theorem error_responses_are_text (v : variant) (env : Env) (req : Request) :
  exists resp l,
    run (handler v env req) = (Return resp, l)
    /\ (status resp < 400
        \/ (content_type resp = Some "text/plain"
            /\ exists t, body resp = Some (BodyText t))).
Proof.
  destruct v; explore; leaf;
    try (left; lia);
    try (right; split; [reflexivity|eexists; reflexivity]).
  - left. unfold ok in *. lia.
  - left. unfold ok in *. lia.
Qed.

(** X7. A run calls the resolver at most once and fetches at most once,
    and a fetch comes second in the log, straight after the resolver
    call. *)
Theorem one_resolution_one_fetch (v : variant) (env : Env) (req : Request) :
  exists resp l,
    run (handler v env req) = (Return resp, l)
    /\ (length (resolver_calls l) <= 1)%nat
    /\ (fetches l = []
        \/ exists e target h rest,
             l = e :: CallFetch target h :: rest
             /\ resolver_calls [e] = [e]
             /\ resolver_calls rest = []
             /\ fetches rest = []).
Proof.
  destruct v; explore; leaf; (split; [simpl; lia|]);
    try (left; reflexivity);
    right; eexists _, _, _, _; repeat split.
Qed.

(** X2. A handler fetches only on the media-relay path of serve.ts and of
    part_001, and only the URL that the resolver gave for the [url]
    parameter of the request. *)
Theorem fetch_only_resolved_url
  (v : variant) (env : Env) (req : Request) (target : string) (h : Headers) :
  In (CallFetch target h) (snd (run (handler v env req))) ->
  relays v = true
  /\ exists inputUrl,
       media_relay_request req inputUrl
       /\ resolves_to_video v env inputUrl target.
Proof.
  destruct v; explore; intros Hin; simpl in Hin;
    repeat match goal with
      | H : _ \/ _ |- _ => destruct H
      | H : False |- _ => destruct H
      | H : CallFetch _ _ = CallFetch _ _ |- _ => injection H as <- <-
      | H : _ = CallFetch _ _ |- _ => discriminate H
      end.
  all: split; [reflexivity|]; eexists; split;
    [repeat split; [now apply String.eqb_neq|eassumption|reflexivity|assumption]|].
  all: try (split; assumption).
  all: match goal with
       | Hty : strict_eq (type ?d) "video" = true,
         Hvu : truthy_opt (video_url ?d) = true |- _ =>
           apply strict_eq_true in Hty;
           apply truthy_opt_true in Hvu as (t & Hvu & Ht);
           exists d; rewrite Hvu; auto
       end.
Qed.

Lemma fetch_only_resolved_url_witness :
  In (CallFetch media_url (videoRequestHeaders req_media))
     (snd (run (handler part_001 env_video req_media)))
  /\ relays part_001 = true
  /\ exists inputUrl,
       media_relay_request req_media inputUrl
       /\ resolves_to_video part_001 env_video inputUrl media_url.
Proof.
  split; [simpl; auto|].
  apply (fetch_only_resolved_url part_001 env_video req_media media_url
           (videoRequestHeaders req_media)).
  simpl; auto.
Defined.

(** ** The names of the response headers *)

Lemma known_names_remove (h : Headers) (n : string) :
  known_names h = true -> known_names (Headers.remove h n) = true.
Proof.
  unfold known_names, Headers.remove.
  induction h as [|[k w] r IH]; simpl; [reflexivity|].
  intros H. apply andb_prop in H as [Hk Hr].
  destruct (name_eqb k n); simpl; [auto|].
  rewrite Hk. simpl. auto.
Qed.

Lemma known_names_set (h : Headers) (n x : string) :
  existsb (String.eqb (lowercase n)) response_header_names = true ->
  known_names h = true -> known_names (Headers.set h n x) = true.
Proof.
  intros Hn.
  induction h as [|[k w] r IH]; intros H.
  - unfold known_names. simpl Headers.set. cbn [forallb fst].
    rewrite lowercase_idem, Hn. reflexivity.
  - simpl Headers.set.
    unfold known_names in H. cbn [forallb fst] in H.
    apply andb_prop in H as [Hk Hr].
    destruct (name_eqb k n).
    + unfold known_names. cbn [forallb fst]. rewrite Hk.
      apply (known_names_remove r n Hr).
    + unfold known_names. cbn [forallb fst]. rewrite Hk.
      apply (IH Hr).
Qed.

Lemma known_names_responseHeaders (v : variant) (up : UpstreamResponse) :
  known_names (responseHeaders (createCorsHeaders v) up) = true.
Proof.
  unfold responseHeaders.
  destruct (Headers.has (up_headers up) "content-range");
    repeat (apply known_names_set; [reflexivity|]); destruct v; reflexivity.
Qed.

(** X12. A response carries no header other than the four CORS headers,
    Content-Type, Content-Length, Accept-Ranges and Content-Range: nothing
    else that upstream sent (a cookie, a disposition) is passed on. *)
Theorem only_known_response_headers (v : variant) (env : Env) (req : Request) :
  exists resp l,
    run (handler v env req) = (Return resp, l)
    /\ known_names (headers resp) = true.
Proof.
  destruct v; explore; leaf; try reflexivity.
  - apply (known_names_responseHeaders serve_ts).
  - apply (known_names_responseHeaders part_001).
Qed.

(** ** What a handler reads of the request *)

Lemma same_view_videoRequestHeaders (r1 r2 : Request) :
  Headers.get (req_headers r1) "range" = Headers.get (req_headers r2) "range" ->
  videoRequestHeaders r1 = videoRequestHeaders r2.
Proof.
  intros H. unfold videoRequestHeaders. rewrite <- H.
  destruct (Headers.get (req_headers r1) "range") as [x|] eqn:E.
  - assert (H1 : Headers.has (req_headers r1) "range" = true)
      by (apply has_true_get; eauto).
    assert (H2 : Headers.has (req_headers r2) "range" = true)
      by (apply has_true_get; eauto).
    now rewrite H1, H2.
  - symmetry in H. apply has_false_get in E, H. now rewrite E, H.
Qed.

(** X10. Two requests that agree on being a preflight or not, on the
    first [url] parameter, on having a [data] parameter and on the Range
    header get the same run: the method otherwise, the other parameters
    and the other headers are not read. *)
Theorem run_depends_on_view
  (v : variant) (env : Env) (r1 r2 : Request) :
  same_view r1 r2 ->
  run (handler v env r1) = run (handler v env r2).
Proof.
  intros (Hm & Hu & Hd & Hr).
  apply same_view_videoRequestHeaders in Hr.
  destruct v; unfold handler, Serve.handler, Part000.handler, Part001.handler;
    rewrite Hm, Hu, Hd, ?Hr; reflexivity.
Qed.

Lemma run_depends_on_view_witness :
  same_view req_media req_post
  /\ run (handler serve_ts env_video req_media)
     = run (handler serve_ts env_video req_post).
Proof.
  split; [repeat split|].
  apply (run_depends_on_view serve_ts env_video req_media req_post).
  repeat split.
Defined.

(** ** More paths *)

(** X1. A [url] parameter that is present but empty counts as missing: the
    answer is 400 with content type text/plain and the resolver is not
    called, in the three variants. *)
Theorem empty_url_rejected (v : variant) (env : Env) (req : Request) :
  method req <> "OPTIONS" ->
  URLSearchParams.get (searchParams (url req)) "url" = Some EmptyString ->
  exists resp,
    run (handler v env req) = (Return resp, [])
    /\ status resp = 400
    /\ content_type resp = Some "text/plain"
    /\ body resp = Some (BodyText "Missing 'url' parameter.").
Proof.
  intros Hm Hu.
  destruct (missing_url_run env req v Hm) as (resp & E & Hs & Hb & Hct).
  { now rewrite Hu. }
  exists resp. repeat split; try assumption.
  unfold content_type, Headers.get. rewrite Hct. destruct v; reflexivity.
Qed.

Lemma empty_url_rejected_witness :
  method req_blank_url <> "OPTIONS"
  /\ URLSearchParams.get (searchParams (url req_blank_url)) "url" = Some EmptyString
  /\ exists resp,
      run (handler serve_ts env_video req_blank_url) = (Return resp, [])
      /\ status resp = 400
      /\ content_type resp = Some "text/plain"
      /\ body resp = Some (BodyText "Missing 'url' parameter.").
Proof.
  split; [discriminate|]. split; [reflexivity|].
  apply (empty_url_rejected serve_ts env_video req_blank_url);
    [discriminate|reflexivity].
Defined.

(** X3. part_000 answers the media-relay path with whatever string
    [getVideoUrl] returned, as a 200 text/plain body, after that one call;
    it does not test the string, so an empty one is answered 200 as
    well. *)
Theorem pass_through_answers_url
  (env : Env) (req : Request) (inputUrl target : string) :
  media_relay_request req inputUrl ->
  getVideoUrl env inputUrl = Return target ->
  exists resp,
    run (handler part_000 env req) = (Return resp, [CallGetVideoUrl inputUrl])
    /\ status resp = 200
    /\ content_type resp = Some "text/plain"
    /\ body resp = Some (BodyText target).
Proof.
  intros Hreq Hr. simpl handler.
  rewrite (pass_through_run env req inputUrl target) by assumption.
  eexists. repeat split.
Qed.

Lemma pass_through_answers_url_witness :
  media_relay_request req_media share_url
  /\ getVideoUrl env_blank_url share_url = Return EmptyString
  /\ exists resp,
      run (handler part_000 env_blank_url req_media)
      = (Return resp, [CallGetVideoUrl share_url])
      /\ status resp = 200
      /\ content_type resp = Some "text/plain"
      /\ body resp = Some (BodyText EmptyString).
Proof.
  split; [solve [concrete]|]. split; [reflexivity|].
  apply (pass_through_answers_url env_blank_url req_media share_url EmptyString);
    solve [concrete].
Defined.

(** X4. On the media-relay path, when the resolver throws, or when in
    serve.ts it returns the empty string, the answer is 500 with the fixed
    text of the handler and no fetch is made. *)
Theorem resolution_failure_is_500
  (v : variant) (env : Env) (req : Request) (inputUrl : string) :
  media_relay_request req inputUrl ->
  resolution_fails v env inputUrl ->
  exists resp l,
    run (handler v env req) = (Return resp, l)
    /\ status resp = 500
    /\ body resp = Some (BodyText (relay_error_message v))
    /\ fetches l = [].
Proof.
  intros (Hm & Hu & Ht & Hd) Hf.
  destruct v; simpl in Hf.
  - destruct Hf as [[e Hf]|Hf]; enter Hm Hu Ht; rewrite Hd, Hf;
      eexists _, _; repeat split.
  - destruct Hf as [e Hf]. enter Hm Hu Ht. rewrite Hd, Hf.
    eexists _, _; repeat split.
  - destruct Hf as [e Hf]. enter Hm Hu Ht. rewrite Hf.
    eexists _, _; repeat split.
Qed.

Lemma resolution_failure_is_500_witness :
  media_relay_request req_media share_url
  /\ resolution_fails serve_ts env_blank_url share_url
  /\ exists resp l,
      run (handler serve_ts env_blank_url req_media) = (Return resp, l)
      /\ status resp = 500
      /\ body resp = Some (BodyText (relay_error_message serve_ts))
      /\ fetches l = [].
Proof.
  split; [solve [concrete]|]. split; [right; reflexivity|].
  apply (resolution_failure_is_500 serve_ts env_blank_url req_media share_url);
    [solve [concrete]|right; reflexivity].
Defined.

(** X5. On the media-relay path of a video, when [fetch] itself throws
    (the network fails), the answer is 500 with the fixed text of the
    handler; the error is logged and does not reach the caller. *)
Theorem fetch_failure_is_500
  (v : variant) (env : Env) (req : Request) (inputUrl target : string) (e : Error) :
  relays v = true ->
  media_relay_request req inputUrl ->
  resolves_to_video v env inputUrl target ->
  fetch env target (videoRequestHeaders req) = Throw e ->
  exists resp msg,
    run (handler v env req)
    = (Return resp,
       [resolver_event v inputUrl; CallFetch target (videoRequestHeaders req);
        ConsoleError msg e])
    /\ status resp = 500
    /\ body resp = Some (BodyText (relay_error_message v)).
Proof.
  intros Hv (Hm & Hu & Ht & Hd) Hres Hf.
  destruct v; [|discriminate Hv|]; simpl in Hres.
  - destruct Hres as [Hr Htt].
    enter Hm Hu Ht. rewrite Hd, Hr, Htt. tidy. rewrite Hf.
    eexists _, _; repeat split.
  - destruct Hres as (d & Hr & Hty & Hvu & Htt).
    enter Hm Hu Ht. rewrite Hr. tidy.
    rewrite Hd, Hty, Hvu. cbn [strict_eq truthy_opt]. rewrite Htt.
    change ("video" =? "video")%string with true. tidy. rewrite Hf.
    eexists _, _; repeat split.
Qed.

Lemma fetch_failure_is_500_witness :
  relays part_001 = true
  /\ media_relay_request req_media share_url
  /\ resolves_to_video part_001 env_offline share_url media_url
  /\ fetch env_offline media_url (videoRequestHeaders req_media)
     = Throw (TypeError "error sending request")
  /\ exists resp msg,
      run (handler part_001 env_offline req_media)
      = (Return resp,
         [resolver_event part_001 share_url;
          CallFetch media_url (videoRequestHeaders req_media);
          ConsoleError msg (TypeError "error sending request")])
      /\ status resp = 500
      /\ body resp = Some (BodyText (relay_error_message part_001)).
Proof.
  split; [reflexivity|]. split; [solve [concrete]|]. split; [solve [concrete]|].
  split; [reflexivity|].
  apply (fetch_failure_is_500 part_001 env_offline req_media share_url media_url
           (TypeError "error sending request"));
    solve [concrete].
Defined.

(** X6. When the relayed upstream answer has no Content-Range header, the
    response has none either. *)
Theorem no_content_range_without_upstream
  (v : variant) (env : Env) (req : Request) (inputUrl target : string)
  (up : UpstreamResponse) (rs : ReadableStream) :
  relays v = true ->
  media_relay_request req inputUrl ->
  resolves_to_video v env inputUrl target ->
  fetch env target (videoRequestHeaders req) = Return up ->
  fetched up = true ->
  200 <= up_status up <= 299 ->
  up_body up = Some rs ->
  Headers.has (up_headers up) "Content-Range" = false ->
  exists resp l,
    run (handler v env req) = (Return resp, l)
    /\ status resp = up_status up
    /\ Headers.has (headers resp) "Content-Range" = false.
Proof.
  intros Hv Hreq Hres Hf Hfd Hst Hb Hcr.
  assert (Hok : ok up = true) by (unfold ok; apply andb_true_intro; lia).
  rewrite (relay_ok_run env req v inputUrl target up rs) by assumption.
  eexists _, _. split; [reflexivity|]. split; [reflexivity|]. simpl headers.
  unfold responseHeaders.
  rewrite (has_case_insensitive _ "Content-Range" "content-range") in Hcr by reflexivity.
  rewrite Hcr.
  rewrite !has_set_other by reflexivity.
  destruct v; [reflexivity|discriminate Hv|reflexivity].
Qed.

Lemma no_content_range_without_upstream_witness :
  relays serve_ts = true
  /\ media_relay_request req_media share_url
  /\ resolves_to_video serve_ts env_video share_url media_url
  /\ fetch env_video media_url (videoRequestHeaders req_media) = Return up_200
  /\ fetched up_200 = true
  /\ 200 <= up_status up_200 <= 299
  /\ up_body up_200 = Some media_bytes
  /\ Headers.has (up_headers up_200) "Content-Range" = false
  /\ exists resp l,
      run (handler serve_ts env_video req_media) = (Return resp, l)
      /\ status resp = up_status up_200
      /\ Headers.has (headers resp) "Content-Range" = false.
Proof.
  split; [reflexivity|]. split; [solve [concrete]|]. split; [solve [concrete]|].
  split; [reflexivity|]. split; [reflexivity|]. split; [simpl; lia|].
  split; [reflexivity|]. split; [reflexivity|].
  apply (no_content_range_without_upstream serve_ts env_video req_media share_url
           media_url up_200 media_bytes);
    solve [concrete | simpl; lia].
Defined.

(** X11. In part_001, on the media-relay path, metadata whose type is
    neither 'video' nor 'img' is answered 500 without a fetch, whatever
    its [video_url]. *)
Theorem unknown_type_is_500
  (env : Env) (req : Request) (inputUrl : string) (d : VideoInfo) :
  media_relay_request req inputUrl ->
  getVideoInfo env inputUrl = Return d ->
  type d <> Some "video" ->
  type d <> Some "img" ->
  exists resp msg,
    run (handler part_001 env req)
    = (Return resp,
       [CallGetVideoInfo inputUrl;
        ConsoleError msg (JsError "未知或不支持的内容类型。")])
    /\ status resp = 500
    /\ body resp = Some (BodyText Part001.internal_error_message).
Proof.
  intros (Hm & Hu & Ht & Hd) Hr Hv Hi.
  assert (Ev : strict_eq (type d) "video" = false).
  { destruct (strict_eq (type d) "video") eqn:E; [|reflexivity].
    apply strict_eq_true in E. contradiction. }
  assert (Ei : strict_eq (type d) "img" = false).
  { destruct (strict_eq (type d) "img") eqn:E; [|reflexivity].
    apply strict_eq_true in E. contradiction. }
  simpl handler. enter Hm Hu Ht. rewrite Hr. tidy.
  rewrite Hd, Ev, Ei. tidy.
  eexists _, _; repeat split.
Qed.

Lemma unknown_type_is_500_witness :
  media_relay_request req_media share_url
  /\ getVideoInfo env_live share_url = Return live_info
  /\ type live_info <> Some "video"
  /\ type live_info <> Some "img"
  /\ exists resp msg,
      run (handler part_001 env_live req_media)
      = (Return resp,
         [CallGetVideoInfo share_url;
          ConsoleError msg (JsError "未知或不支持的内容类型。")])
      /\ status resp = 500
      /\ body resp = Some (BodyText Part001.internal_error_message).
Proof.
  split; [solve [concrete]|]. split; [reflexivity|].
  split; [discriminate|]. split; [discriminate|].
  apply (unknown_type_is_500 env_live req_media share_url live_info);
    solve [concrete].
Defined.
